(** * Flight tracker: the three API route handlers and their transforms

    A shallow embedding of

    - [src/app/api/flights/route.ts]  (search handler: [mapStatus],
      [formatTimezone], [transformFlight], [GET]),
    - the pricing route               ([transformPricingData], [GET]),
    - the routes route                ([transformRoute], [GET]),

    followed by the properties the specification states about them.

    Conventions of the embedding.

    - A JavaScript [string] is a [string] of Rocq: the text is taken to be
      ASCII, the case conversions touch the letters a-z / A-Z only.
    - A JavaScript [number] that carries a quantity (price, delay) is a
      rational [Q]: every finite double is one, and on finite doubles the
      comparisons and the sign of a difference agree with the exact ones.
      Numbers that are identifiers or counters are [Z].
    - [null] / [undefined] are [None].
    - An object used as a dictionary is a [gmap] keyed by the property name.
    - A computation that can throw has type [outcome A]; a handler, which
      also talks to the upstream provider, runs in the monad [io]. *)

From Stdlib Require Import ZArith QArith List String Ascii Bool Lia.
From Stdlib Require Import DecimalString Sorted Permutation Lqa.
From stdpp Require Import gmap strings.

Import ListNotations.

(* ===================================================================== *)
(** ** JavaScript primitives                                              *)
(* ===================================================================== *)

Module Js.

(** *** Truthiness and the [||] operator *)

Definition number := Q.

(** [!!x] for a number: everything but zero. *)
Definition truthy_number (x : number) : bool := negb (Qeq_bool x 0).

(** [x > y] on numbers. *)
Definition gt (x y : number) : bool := negb (Qle_bool x y).

(** [!!s] for a string: everything but the empty string. *)
Definition truthy_string (s : string) : bool :=
  match s with
  | EmptyString => false
  | String _ _ => true
  end.

(** [s || d] where [s] is a string or [undefined]. *)
Definition or_string (s : option string) (d : string) : string :=
  match s with
  | Some v => if truthy_string v then v else d
  | None => d
  end.

(** [x || d] where [x] is a number or [undefined]. *)
Definition or_number (x : option number) (d : number) : number :=
  match x with
  | Some v => if truthy_number v then v else d
  | None => d
  end.

(** [a?.[0]] *)
Definition first {A : Type} (a : option (list A)) : option A :=
  match a with
  | Some (x :: _) => Some x
  | _ => None
  end.

(** *** Characters *)

Definition code (c : ascii) : nat := nat_of_ascii c.

Definition in_range (lo hi : nat) (c : ascii) : bool :=
  (lo <=? code c)%nat && (code c <=? hi)%nat.

Definition is_upper : ascii -> bool := in_range 65 90.   (* [A-Z] *)
Definition is_lower : ascii -> bool := in_range 97 122.  (* [a-z] *)
Definition is_digit : ascii -> bool := in_range 48 57.   (* \d    *)

(** White space removed by [String.prototype.trim], within ASCII:
    TAB, LF, VT, FF, CR and SPACE. *)
Definition is_space (c : ascii) : bool :=
  in_range 9 13 c || (code c =? 32)%nat.

Definition upper_char (c : ascii) : ascii :=
  if is_lower c then ascii_of_nat (code c - 32) else c.

Definition lower_char (c : ascii) : ascii :=
  if is_upper c then ascii_of_nat (code c + 32) else c.

(** *** Strings *)

Fixpoint map_string (f : ascii -> ascii) (s : string) : string :=
  match s with
  | EmptyString => EmptyString
  | String c r => String (f c) (map_string f r)
  end.

Definition toUpperCase : string -> string := map_string upper_char.
Definition toLowerCase : string -> string := map_string lower_char.

Fixpoint trimStart (s : string) : string :=
  match s with
  | EmptyString => EmptyString
  | String c r => if is_space c then trimStart r else s
  end.

Fixpoint trimEnd (s : string) : string :=
  match s with
  | EmptyString => EmptyString
  | String c r =>
      match trimEnd r with
      | EmptyString => if is_space c then EmptyString else String c EmptyString
      | r' => String c r'
      end
  end.

Definition trim (s : string) : string := trimEnd (trimStart s).

(** [s.startsWith(p)] *)
Definition startsWith (p s : string) : bool := String.prefix p s.

(** [`${n}`] for a non-negative integer [n]: its decimal digits. *)
Definition string_of_index (n : nat) : string :=
  NilEmpty.string_of_uint (Nat.to_uint n).

(** [String(n)] for an integer [n], as used for a property key. *)
Definition string_of_int (n : Z) : string :=
  NilZero.string_of_int (Z.to_int n).

(** *** [parseInt] *)

Definition digit_value (c : ascii) : option Z :=
  if is_digit c then Some (Z.of_nat (code c) - 48)%Z
  else if in_range 97 102 c then Some (Z.of_nat (code c) - 87)%Z
  else if in_range 65 70 c then Some (Z.of_nat (code c) - 55)%Z
  else None.

(** The value of the longest prefix of digits of the radix; [acc] is
    the value read so far, [None] before the first digit. *)
Fixpoint parse_digits (radix : Z) (s : string) (acc : option Z) : option Z :=
  match s with
  | EmptyString => acc
  | String c r =>
      match digit_value c with
      | Some d =>
          if (d <? radix)%Z
          then parse_digits radix r (Some (default 0%Z acc * radix + d)%Z)
          else acc
      | None => acc
      end
  end.

Definition parse_unsigned (s : string) : option Z :=
  match s with
  | String "0" (String "x" r) | String "0" (String "X" r) => parse_digits 16 r None
  | _ => parse_digits 10 s None
  end.

(** [parseInt(s)], [None] for [NaN]. *)
Definition parseInt (s : string) : option Z :=
  match trimStart s with
  | String "-" r => option_map Z.opp (parse_unsigned r)
  | String "+" r => parse_unsigned r
  | r => parse_unsigned r
  end.

End Js.

(* ===================================================================== *)
(** ** Regular expressions                                                *)
(* ===================================================================== *)

(** The handlers test their input against three patterns, all of the form
    [/^body$/] without flags.  A pattern is kept as the syntax tree of its
    body; [test] decides whether the whole string matches it (what the two
    anchors ask for), by Brzozowski derivatives. *)

Module Regex.

Inductive t : Type :=
| Empty                              (* matches nothing *)
| Eps                                (* matches the empty string *)
| Class (p : ascii -> bool)          (* one character of a class *)
| Seq (a b : t)
| Alt (a b : t)
| Star (a : t).

(** [a{n}] and [a+] *)
Fixpoint Repeat (n : nat) (a : t) (k : t) : t :=
  match n with
  | O => k
  | S m => Seq a (Repeat m a k)
  end.

Definition Plus (a : t) : t := Seq a (Star a).

Fixpoint nullable (r : t) : bool :=
  match r with
  | Empty => false
  | Eps => true
  | Class _ => false
  | Seq a b => nullable a && nullable b
  | Alt a b => nullable a || nullable b
  | Star _ => true
  end.

Fixpoint deriv (c : ascii) (r : t) : t :=
  match r with
  | Empty => Empty
  | Eps => Empty
  | Class p => if p c then Eps else Empty
  | Seq a b =>
      if nullable a
      then Alt (Seq (deriv c a) b) (deriv c b)
      else Seq (deriv c a) b
  | Alt a b => Alt (deriv c a) (deriv c b)
  | Star a => Seq (deriv c a) (Star a)
  end.

(** [/^r$/.test(s)] *)
Fixpoint test (r : t) (s : string) : bool :=
  match s with
  | EmptyString => nullable r
  | String c s' => test (deriv c r) s'
  end.

End Regex.

(* ===================================================================== *)
(** ** Effects: exceptions and the upstream provider                      *)
(* ===================================================================== *)

Inductive exn : Type :=
| RangeError       (* Intl rejects a time zone name *)
| FetchError       (* [fetch] rejects: the provider cannot be reached *)
| SyntaxError.     (* [response.json()] rejects: the body is not JSON *)

(** The result of running code that may throw. *)
Inductive outcome (A : Type) : Type :=
| Returned (a : A)
| Thrown (e : exn).

Arguments Returned {A} a.
Arguments Thrown {A} e.

Module Outcome.

Definition bind {A B : Type} (m : outcome A) (k : A -> outcome B) : outcome B :=
  match m with
  | Returned a => k a
  | Thrown e => Thrown e
  end.

(** [try { m } catch { h }] *)
Definition try_catch {A : Type} (m : outcome A) (h : exn -> outcome A) : outcome A :=
  match m with
  | Returned a => Returned a
  | Thrown e => h e
  end.

(** [xs.map((x, index) => f(x, index))] where [f] may throw. *)
Fixpoint map_from {A B : Type} (f : A -> nat -> outcome B) (i : nat) (xs : list A)
  : outcome (list B) :=
  match xs with
  | [] => Returned []
  | x :: r =>
      bind (f x i) (fun y =>
      bind (map_from f (S i) r) (fun ys =>
      Returned (y :: ys)))
  end.

Definition map_indexed {A B : Type} (f : A -> nat -> outcome B) (xs : list A)
  : outcome (list B) :=
  map_from f 0 xs.

End Outcome.

(** What [fetch] resolves to.  [resp_json] is what [response.json()]
    resolves to, [None] when it rejects; [resp_text] likewise for
    [response.text()]. *)
Record HttpResponse (D : Type) : Type := {
  resp_status : Z;
  resp_text : option string;
  resp_json : option D;
}.

Arguments resp_status {D} _.
Arguments resp_text {D} _.
Arguments resp_json {D} _.

(** [response.ok] *)
Definition resp_ok {D : Type} (r : HttpResponse D) : bool :=
  (200 <=? resp_status r)%Z && (resp_status r <=? 299)%Z.

(** The provider, seen from a handler: the answer to the [n]-th request of
    the handler's run, [None] when [fetch] rejects.  [R] is the type of a
    request, [D] of a decoded body. *)
Definition upstream (R D : Type) : Type := nat -> R -> option (HttpResponse D).

(** A handler's computation: it reads the provider, appends to the log of
    the requests sent so far, and returns or throws. *)
Definition io (R D A : Type) : Type :=
  upstream R D -> list R -> outcome A * list R.

Module IO.

Section Ops.
Context {R D : Type}.

Definition ret {A : Type} (a : A) : io R D A :=
  fun _ log => (Returned a, log).

Definition throw {A : Type} (e : exn) : io R D A :=
  fun _ log => (Thrown e, log).

Definition bind {A B : Type} (m : io R D A) (k : A -> io R D B) : io R D B :=
  fun up log =>
    match m up log with
    | (Returned a, log') => k a up log'
    | (Thrown e, log') => (Thrown e, log')
    end.

Definition lift {A : Type} (m : outcome A) : io R D A :=
  fun _ log => (m, log).

(** [try { m } catch (error) { h }] *)
Definition try_catch {A : Type} (m : io R D A) (h : exn -> io R D A) : io R D A :=
  fun up log =>
    match m up log with
    | (Returned a, log') => (Returned a, log')
    | (Thrown e, log') => h e up log'
    end.

(** [await fetch(req)] *)
Definition fetch (req : R) : io R D (HttpResponse D) :=
  fun up log =>
    match up (length log) req with
    | Some r => (Returned r, log ++ [req])
    | None => (Thrown FetchError, log ++ [req])
    end.

(** [await response.json()] *)
Definition json (r : HttpResponse D) : io R D D :=
  match resp_json r with
  | Some d => ret d
  | None => throw SyntaxError
  end.

(** [await response.text()] *)
Definition text (r : HttpResponse D) : io R D string :=
  match resp_text r with
  | Some s => ret s
  | None => throw FetchError
  end.

(** A computation that sends nothing to the provider. *)
Definition silent {A : Type} (m : io R D A) : Prop :=
  forall up log, snd (m up log) = log.

(** Run a handler against a provider, from an empty log. *)
Definition run {A : Type} (m : io R D A) (up : upstream R D) : outcome A * list R :=
  m up [].

End Ops.

End IO.

Declare Scope io_scope.
Delimit Scope io_scope with io.
Notation "x <- m ;; k" := (IO.bind m (fun x => k))
  (at level 100, m at next level, right associativity) : io_scope.

(** What a handler answers: [NextResponse.json(body, { status })], the status
    being 200 when it is left out. *)
Record Response (B : Type) : Type := {
  status : Z;
  body : B;
}.

Arguments status {B} _.
Arguments body {B} _.

Definition json_response {B : Type} (b : B) : Response B :=
  {| status := 200; body := b |}.

Definition json_response_with {B : Type} (b : B) (st : Z) : Response B :=
  {| status := st; body := b |}.

(** The request's [searchParams]: [get] gives the first value of a name,
    or [null]. *)
Definition SearchParams : Type := list (string * string).

Fixpoint searchParams_get (ps : SearchParams) (name : string) : option string :=
  match ps with
  | [] => None
  | (k, v) :: r => if String.eqb k name then Some v else searchParams_get r name
  end.

(** [url.searchParams.set(name, value)]: the first pair of that name takes
    the value and the later ones go; a new name is appended. *)
Fixpoint searchParams_set (ps : SearchParams) (name value : string) : SearchParams :=
  match ps with
  | [] => [(name, value)]
  | (k, v) :: r =>
      if String.eqb k name
      then (name, value) :: List.filter (fun p => negb (String.eqb (fst p) name)) r
      else (k, v) :: searchParams_set r name value
  end.

(** A [URL] object under construction: where it points and its query. *)
Record URL : Type := {
  url_base : string;
  url_params : SearchParams;
}.

Definition new_URL (base : string) : URL :=
  {| url_base := base; url_params := [] |}.

Definition url_set (u : URL) (name value : string) : URL :=
  {| url_base := url_base u; url_params := searchParams_set (url_params u) name value |}.

(** The error object of an Aviation Stack body: [{ error: { message } }]. *)
Record ApiError : Type := {
  error_message : option string;
}.

Definition AVIATIONSTACK_BASE_URL : string := "http://api.aviationstack.com/v1".

(** [/^[A-Z]{3}$/] *)
Definition airportPattern : Regex.t :=
  Regex.Repeat 3 (Regex.Class Js.is_upper) Regex.Eps.

(* ===================================================================== *)
(** ** The search handler: [src/app/api/flights/route.ts]                 *)
(* ===================================================================== *)

Module Flights.

(** *** Provider and result shapes (the fields the handler reads) *)

Record AviationStackEndpoint : Type := {
  ep_airport : string;
  ep_timezone : string;
  ep_iata : string;
  ep_delay : option Js.number;
  ep_scheduled : string;
}.

Record AviationStackAirline : Type := {
  airline_name : string;
  airline_iata : string;
}.

Record AviationStackFlightId : Type := {
  flight_number : string;
  flight_iata : string;
}.

Record AviationStackLive : Type := {
  live_updated : string;
  live_latitude : Js.number;
  live_longitude : Js.number;
  live_altitude : Js.number;
  live_speed_horizontal : Js.number;
}.

Record AviationStackFlight : Type := {
  flight_status : option string;
  api_departure : AviationStackEndpoint;
  api_arrival : AviationStackEndpoint;
  api_airline : AviationStackAirline;
  api_flight : AviationStackFlightId;
  api_live : option AviationStackLive;
}.

(** [Flight['status']] *)
Inductive FlightStatus : Type :=
| scheduled | boarding | departed | in_flight | landed | delayed | cancelled.

Definition status_string (s : FlightStatus) : string :=
  match s with
  | scheduled => "scheduled"
  | boarding => "boarding"
  | departed => "departed"
  | in_flight => "in-flight"
  | landed => "landed"
  | delayed => "delayed"
  | cancelled => "cancelled"
  end.

Record FlightEndpoint : Type := {
  airport : string;
  city : string;
  time : string;
  timezone : string;
}.

Record FlightLive : Type := {
  latitude : Js.number;
  longitude : Js.number;
  altitude : Js.number;
  speed : Js.number;
  updated : string;
}.

Record Flight : Type := {
  id : string;
  flightNumber : string;
  airline : string;
  departure : FlightEndpoint;
  arrival : FlightEndpoint;
  flight_state : FlightStatus;     (* the field [status] *)
  live : option FlightLive;
}.

(** *** [mapStatus] *)

(** [d && d > 15] *)
Definition delay_over_15 (d : option Js.number) : bool :=
  match d with
  | Some v => Js.truthy_number v && Js.gt v 15%Q
  | None => false
  end.

Definition mapStatus (apiStatus : option string) (depDelay arrDelay : option Js.number)
  : FlightStatus :=
  let status := Js.or_string (option_map Js.toLowerCase apiStatus) "scheduled" in
  if delay_over_15 depDelay || delay_over_15 arrDelay then delayed
  else if String.eqb status "scheduled" then scheduled
  else if String.eqb status "active" then in_flight
  else if String.eqb status "landed" then landed
  else if String.eqb status "cancelled" then cancelled
  else if String.eqb status "incident" then delayed
  else if String.eqb status "diverted" then delayed
  else scheduled.

(** *** [formatTimezone] *)

(** One element of [formatter.formatToParts(date)]. *)
Record DateTimePart : Type := {
  part_type : string;
  part_value : string;
}.

(** [parts.find(p => p.type === 'timeZoneName')?.value || ''] *)
Definition timeZoneName_of (parts : list DateTimePart) : string :=
  Js.or_string
    (option_map part_value
       (List.find (fun p => String.eqb (part_type p) "timeZoneName") parts))
    "".

Section WithRuntime.

(** The runtime's [Intl]: what
    [new Intl.DateTimeFormat('en-US', { timeZone: tz, timeZoneName: 'short' })
       .formatToParts(new Date())]
    gives for a zone name, which is the parts or an exception. *)
Variable intl : string -> outcome (list DateTimePart).

Definition formatTimezone (tz : string) : outcome string :=
  if negb (Js.truthy_string tz) then Returned EmptyString
  else
    Outcome.try_catch
      (Outcome.bind (intl tz) (fun parts =>
       let tzAbbr := timeZoneName_of parts in
       Returned (tz +:+ " (" +:+ tzAbbr +:+ ")")))
      (fun _ => Returned tz).

(** *** [transformFlight] *)

Definition transformFlight (apiFlight : AviationStackFlight) (index : nat)
  : outcome Flight :=
  let dep := api_departure apiFlight in
  let arr := api_arrival apiFlight in
  Outcome.bind (formatTimezone (ep_timezone dep)) (fun dep_tz =>
  Outcome.bind (formatTimezone (ep_timezone arr)) (fun arr_tz =>
  Returned
    {| id := flight_iata (api_flight apiFlight) +:+ "-" +:+ Js.string_of_index index;
       flightNumber :=
         Js.or_string (Some (flight_iata (api_flight apiFlight)))
           (airline_iata (api_airline apiFlight)
              +:+ flight_number (api_flight apiFlight));
       airline := airline_name (api_airline apiFlight);
       departure :=
         {| airport := ep_iata dep;
            city := ep_airport dep;
            time := ep_scheduled dep;
            timezone := dep_tz |};
       arrival :=
         {| airport := ep_iata arr;
            city := ep_airport arr;
            time := ep_scheduled arr;
            timezone := arr_tz |};
       flight_state := mapStatus (flight_status apiFlight) (ep_delay dep) (ep_delay arr);
       live :=
         option_map
           (fun l =>
              {| latitude := live_latitude l;
                 longitude := live_longitude l;
                 altitude := live_altitude l;
                 speed := live_speed_horizontal l;
                 updated := live_updated l |})
           (api_live apiFlight) |})).

(** *** [GET] *)

(** The decoded body of the provider's answer. *)
Record FlightsPayload : Type := {
  payload_error : option ApiError;
  payload_data : option (list AviationStackFlight);
}.

(** The body of the handler's answer: [{ flights }] or [{ error }]. *)
Inductive SearchBody : Type :=
| FlightsBody (flights : list Flight)
| ErrorBody (error : string).

(** [/^[A-Z]{2}\d+$/] *)
Definition flightNumberPattern : Regex.t :=
  Regex.Repeat 2 (Regex.Class Js.is_upper) (Regex.Plus (Regex.Class Js.is_digit)).

(** The name of the provider's search field the query goes into: the
    chain of [if]s of the handler, each branch of which sets one field
    to the query. *)
Definition search_field (query : string) : string :=
  if Regex.test flightNumberPattern query then "flight_iata"
  else if Regex.test airportPattern query then "dep_iata"
  else if (String.length query =? 2)%nat then "airline_iata"
  else "flight_iata".

Definition key_missing_message : string :=
  "Aviation Stack API key not configured. Please set AVIATIONSTACK_API_KEY environment variable.".

(** The request of a search: the part of the handler from [new URL]
    to the last [searchParams.set]. *)
Definition search_url (key query flightDate : string) : URL :=
  let apiUrl := new_URL (AVIATIONSTACK_BASE_URL +:+ "/flights") in
  let apiUrl := url_set apiUrl "access_key" key in
  let apiUrl := url_set apiUrl (search_field query) query in
  let apiUrl :=
    if Js.truthy_string flightDate
    then url_set apiUrl "flight_date" flightDate
    else apiUrl in
  url_set apiUrl "limit" "20".

Local Open Scope io_scope.

(** The part of the handler after [fetch]: decoding and reshaping the
    provider's answer. *)
Definition respond (response : HttpResponse FlightsPayload)
  : io URL FlightsPayload (Response SearchBody) :=
  data <- IO.json response ;;
  match payload_error data with
  | Some e =>
      IO.ret (json_response_with
                (ErrorBody (Js.or_string (error_message e) "Failed to fetch flight data"))
                400)
  | None =>
      flights <- IO.lift (Outcome.map_indexed transformFlight
                            (default [] (payload_data data))) ;;
      IO.ret (json_response (FlightsBody flights))
  end.

Definition GET (AVIATIONSTACK_API_KEY : option string) (searchParams : SearchParams)
  : io URL FlightsPayload (Response SearchBody) :=
  let query :=
    Js.or_string
      (option_map (fun q => Js.trim (Js.toUpperCase q)) (searchParams_get searchParams "q"))
      "" in
  let flightDate := Js.or_string (searchParams_get searchParams "date") "" in
  if negb (Js.truthy_string query) then
    IO.ret (json_response (FlightsBody []))
  else if negb (Js.truthy_string (Js.or_string AVIATIONSTACK_API_KEY "")) then
    IO.ret (json_response_with (ErrorBody key_missing_message) 500)
  else
    IO.try_catch
      (response <-
         IO.fetch (search_url (Js.or_string AVIATIONSTACK_API_KEY "") query flightDate) ;;
       respond response)
      (fun _ =>
         IO.ret (json_response_with
                   (ErrorBody "Failed to fetch flight data. Please try again.")
                   500)).

End WithRuntime.

End Flights.

(* ===================================================================== *)
(** ** Arrays                                                             *)
(* ===================================================================== *)

Module JsArray.

Section Sort.
Context {A : Type}.

(** [compareFn(a, b)], whose sign orders [a] and [b]. *)
Variable compareFn : A -> A -> Js.number.

(** [a] has to come after [b]: [compareFn(a, b) > 0]. *)
Definition after (a b : A) : bool := Js.gt (compareFn a b) 0%Q.

Fixpoint insert (x : A) (l : list A) : list A :=
  match l with
  | [] => [x]
  | y :: r => if after x y then y :: insert x r else x :: y :: r
  end.

(** [array.sort(compareFn)].  The language requires the sort to be
    stable; the one here inserts each element, from the last to the
    first, in front of the first element it does not come after. *)
Fixpoint sort (l : list A) : list A :=
  match l with
  | [] => []
  | x :: r => insert x (sort r)
  end.

End Sort.

Section Keys.
Context {A : Type}.

(** The key of the elements a sort goes by. *)
Variable key : A -> Js.number.

(** Ascending by key. *)
Definition key_le (a b : A) : Prop := (key a <= key b)%Q.

(** The elements with the key [q], in their order. *)
Definition keyed (q : Js.number) (l : list A) : list A :=
  List.filter (fun a => Qeq_bool (key a) q) l.

End Keys.

End JsArray.

(* ===================================================================== *)
(** ** The pricing handler                                                *)
(* ===================================================================== *)

Module Prices.

Definition FLIGHTAPI_BASE_URL : string := "https://api.flightapi.io".

(** *** Provider and result shapes *)

Record FlightApiPrice : Type := {
  amount : Js.number;
  update_status : string;
}.

Record FlightApiItem : Type := {
  url : string;
}.

Record FlightApiPricingOption : Type := {
  option_price : option FlightApiPrice;          (* [price] *)
  agent_ids : list string;
  items : option (list FlightApiItem);
}.

Record FlightApiLeg : Type := {
  leg_id : string;
  origin_place_id : Z;
  destination_place_id : Z;
  leg_departure : string;
  leg_arrival : string;
  leg_duration : Js.number;
  stop_count : Js.number;
  marketing_carrier_ids : option (list Z);
}.

Record FlightApiItinerary : Type := {
  itinerary_id : string;
  pricing_options : option (list FlightApiPricingOption);
  legs : option (list FlightApiLeg);
}.

Record FlightApiPlace : Type := {
  place_id : Z;
  place_iata : string;
  place_name : string;
  place_type : string;
}.

Record FlightApiCarrier : Type := {
  carrier_id : Z;
  carrier_name : string;
  carrier_iata : string;
}.

(** The decoded body; [data_error] and [data_message] are the members
    [error] and [message] the handler looks at before it transforms. *)
Record FlightApiResponse : Type := {
  itineraries : option (list FlightApiItinerary);
  places : option (gmap string FlightApiPlace);
  carriers : option (gmap string FlightApiCarrier);
  data_currency : option string;
  data_error : option string;
  data_message : option string;
}.

Record PriceEndpoint : Type := {
  airport : string;
  airportName : string;
  time : string;
}.

Record PriceResult : Type := {
  id : string;
  price : Js.number;
  currency : string;
  airline : string;
  airlineCode : string;
  departure : PriceEndpoint;
  arrival : PriceEndpoint;
  duration : Js.number;
  stops : Js.number;
  bookingUrl : string;
}.

(** *** [formatDuration] *)

(** [minutes] is a whole number of minutes: [Math.floor] of the quotient
    rounds down, [%] takes the sign of [minutes].  The arithmetic of the
    code is that of doubles; it is the exact one taken here for the whole
    numbers between -2^53 and 2^53, where the quotient is rounded by less
    than a sixtieth and the two numbers are printed digit by digit. *)
Definition formatDuration (minutes : Z) : string :=
  let hours := (minutes / 60)%Z in
  let mins := Z.rem minutes 60 in
  Js.string_of_int hours +:+ "h " +:+ Js.string_of_int mins +:+ "m".

(** *** [transformPricingData] *)

(** The property name a number, or [undefined], indexes an object by: the
    decimal digits of an integer id, which is never the name of a property
    an object inherits. *)
Definition key_of_number (n : option Z) : string :=
  match n with
  | Some k => Js.string_of_int k
  | None => "undefined"
  end.

Section Transform.

Variable places : gmap string FlightApiPlace.
Variable carriers : gmap string FlightApiCarrier.
Variable currency_code : string.

(** The booking link of a pricing option. *)
Definition bookingUrl_of (pricingOption : FlightApiPricingOption) : string :=
  match Js.first (items pricingOption) with
  | Some bookingItem =>
      if Js.truthy_string (url bookingItem) then
        if Js.startsWith "http" (url bookingItem)
        then url bookingItem
        else "https://www.skyscanner.com" +:+ url bookingItem
      else EmptyString
  | None => EmptyString
  end.

(** The object pushed for an itinerary with a first pricing option and
    a first leg. *)
Definition result_of (itinerary : FlightApiItinerary)
    (pricingOption : FlightApiPricingOption) (leg : FlightApiLeg) : PriceResult :=
  let originPlace := places !! key_of_number (Some (origin_place_id leg)) in
  let destPlace := places !! key_of_number (Some (destination_place_id leg)) in
  let carrierId := Js.first (marketing_carrier_ids leg) in
  let carrier := carriers !! key_of_number carrierId in
  {| id := itinerary_id itinerary;
     price := Js.or_number (option_map amount (option_price pricingOption)) 0%Q;
     currency := currency_code;
     airline := Js.or_string (option_map carrier_name carrier) "Unknown Airline";
     airlineCode := Js.or_string (option_map carrier_iata carrier) "";
     departure :=
       {| airport := Js.or_string (option_map place_iata originPlace) "";
          airportName := Js.or_string (option_map place_name originPlace) "";
          time := leg_departure leg |};
     arrival :=
       {| airport := Js.or_string (option_map place_iata destPlace) "";
          airportName := Js.or_string (option_map place_name destPlace) "";
          time := leg_arrival leg |};
     duration := leg_duration leg;
     stops := stop_count leg;
     bookingUrl := bookingUrl_of pricingOption |}.

(** One turn of the loop: [continue] without a first pricing option or
    a first leg, [results.push(...)] otherwise. *)
Definition loop_body (results : list PriceResult) (itinerary : FlightApiItinerary)
  : list PriceResult :=
  match Js.first (pricing_options itinerary) with
  | None => results
  | Some pricingOption =>
      match Js.first (legs itinerary) with
      | None => results
      | Some leg => results ++ [result_of itinerary pricingOption leg]
      end
  end.

End Transform.

(** [(a, b) => a.price - b.price].  A price is never [NaN]: it comes out
    of [amount || 0]. *)
Definition by_price (a b : PriceResult) : Js.number := (price a - price b)%Q.

Definition transformPricingData (data : FlightApiResponse) : list PriceResult :=
  let places := default ∅ (places data) in
  let carriers := default ∅ (carriers data) in
  let currency := Js.or_string (data_currency data) "USD" in
  let results :=
    fold_left (loop_body places carriers currency) (default [] (itineraries data)) [] in
  JsArray.sort by_price results.

(** *** [GET] *)

Record PricesMeta : Type := {
  meta_from : string;
  meta_to : string;
  meta_date : string;
  meta_adults : option Z;
  meta_currency : string;
  resultsCount : nat;
}.

(** The body of the handler's answer: [{ prices, meta }] or [{ error }]. *)
Inductive PricesBody : Type :=
| PricesFound (prices : list PriceResult) (meta : PricesMeta)
| ErrorBody (error : string).

(** [/^\d{4}-\d{2}-\d{2}$/] *)
Definition datePattern : Regex.t :=
  let digit := Regex.Class Js.is_digit in
  let dash := Regex.Class (Ascii.eqb "-") in
  Regex.Repeat 4 digit (Regex.Seq dash
    (Regex.Repeat 2 digit (Regex.Seq dash
       (Regex.Repeat 2 digit Regex.Eps)))).

Definition missing_parameters_message : string :=
  "Missing required parameters: from, to, date".

Definition invalid_airport_message : string :=
  "Invalid airport code. Use 3-letter IATA codes (e.g., JFK, LAX)".

Definition invalid_date_message : string :=
  "Invalid date format. Use YYYY-MM-DD".

Definition key_missing_message : string :=
  "FlightAPI.io API key not configured. Please set FLIGHTAPI_KEY environment variable.".

(** [!x] for a string or [undefined]. *)
Definition absent (x : option string) : bool :=
  negb (Js.truthy_string (Js.or_string x "")).

Local Open Scope io_scope.

(** The upstream request is the URL string; the [Accept] header sent with
    it is always the same. *)
Definition GET (FLIGHTAPI_KEY : option string) (searchParams : SearchParams)
  : io string FlightApiResponse (Response PricesBody) :=
  let from :=
    option_map (fun s => Js.trim (Js.toUpperCase s)) (searchParams_get searchParams "from") in
  let to :=
    option_map (fun s => Js.trim (Js.toUpperCase s)) (searchParams_get searchParams "to") in
  let date := searchParams_get searchParams "date" in
  let adults := Js.or_string (searchParams_get searchParams "adults") "1" in
  let currency := Js.or_string (searchParams_get searchParams "currency") "USD" in
  if absent from || absent to || absent date then
    IO.ret (json_response_with (ErrorBody missing_parameters_message) 400)
  else
    let from := Js.or_string from "" in
    let to := Js.or_string to "" in
    let date := Js.or_string date "" in
    if negb (Regex.test airportPattern from) || negb (Regex.test airportPattern to) then
      IO.ret (json_response_with (ErrorBody invalid_airport_message) 400)
    else if negb (Regex.test datePattern date) then
      IO.ret (json_response_with (ErrorBody invalid_date_message) 400)
    else if absent FLIGHTAPI_KEY then
      IO.ret (json_response_with (ErrorBody key_missing_message) 500)
    else
      IO.try_catch
        (let apiUrl :=
           FLIGHTAPI_BASE_URL +:+ "/onewaytrip/" +:+ Js.or_string FLIGHTAPI_KEY ""
             +:+ "/" +:+ from +:+ "/" +:+ to +:+ "/" +:+ date +:+ "/" +:+ adults
             +:+ "/0/0/Economy/" +:+ currency in
         response <- IO.fetch apiUrl ;;
         if negb (resp_ok response) then
           errorText <- IO.text response ;;
           if (resp_status response =? 401)%Z then
             IO.ret (json_response_with
                       (ErrorBody "Invalid API key. Please check your FLIGHTAPI_KEY.") 401)
           else if (resp_status response =? 429)%Z then
             IO.ret (json_response_with
                       (ErrorBody "API rate limit exceeded. Please try again later.") 429)
           else
             IO.ret (json_response_with
                       (ErrorBody "Failed to fetch pricing data. Please try again.")
                       (resp_status response))
         else
           data <- IO.json response ;;
           if negb (absent (data_error data)) || negb (absent (data_message data)) then
             IO.ret (json_response_with
                       (ErrorBody
                          (Js.or_string (data_message data)
                             (Js.or_string (data_error data) "Unknown API error")))
                       400)
           else
             let prices := transformPricingData data in
             IO.ret (json_response
                       (PricesFound prices
                          {| meta_from := from;
                             meta_to := to;
                             meta_date := date;
                             meta_adults := Js.parseInt adults;
                             meta_currency := currency;
                             resultsCount := length prices |})))
        (fun _ =>
           IO.ret (json_response_with
                     (ErrorBody "Failed to fetch pricing data. Please try again.")
                     500)).

End Prices.

(* ===================================================================== *)
(** ** The routes handler                                                 *)
(* ===================================================================== *)

Module Routes.

Record AviationStackRouteEndpoint : Type := {
  ep_airport : string;
  ep_timezone : string;
  ep_iata : string;
  ep_terminal : option string;
  ep_time : string;
}.

Record AviationStackRouteAirline : Type := {
  airline_name : string;
  airline_iata : string;
}.

Record AviationStackRoute : Type := {
  api_departure : AviationStackRouteEndpoint;
  api_arrival : AviationStackRouteEndpoint;
  api_airline : AviationStackRouteAirline;
  flight_number : string;                       (* [flight.number] *)
}.

Record RouteEndpoint : Type := {
  airport : string;
  airportName : string;
  time : string;
  timezone : string;
  terminal : option string;
}.

Record FlightRoute : Type := {
  id : string;
  flightNumber : string;
  airline : string;
  airlineCode : string;
  departure : RouteEndpoint;
  arrival : RouteEndpoint;
}.

(** *** [transformRoute] *)

Definition transformEndpoint (e : AviationStackRouteEndpoint) : RouteEndpoint :=
  {| airport := ep_iata e;
     airportName := ep_airport e;
     time := ep_time e;
     timezone := ep_timezone e;
     terminal := ep_terminal e |}.

Definition transformRoute (route : AviationStackRoute) (index : nat) : FlightRoute :=
  {| id := airline_iata (api_airline route) +:+ flight_number route
             +:+ "-" +:+ Js.string_of_index index;
     flightNumber := airline_iata (api_airline route) +:+ flight_number route;
     airline := airline_name (api_airline route);
     airlineCode := airline_iata (api_airline route);
     departure := transformEndpoint (api_departure route);
     arrival := transformEndpoint (api_arrival route) |}.

(** [routes.map(transformRoute)] *)
Definition map_routes (routes : list AviationStackRoute) : list FlightRoute :=
  imap (fun index route => transformRoute route index) routes.

(** *** [GET] *)

Record RoutesPayload : Type := {
  payload_error : option ApiError;
  payload_data : option (list AviationStackRoute);
}.

Record RouteList : Type := {
  routes : list FlightRoute;
  list_origin : string;
  list_destination : string;
  list_date : string;
}.

(** The body of the handler's answer: [{ outbound, return }] or
    [{ error }]. *)
Inductive RoutesBody : Type :=
| RoutesFound (outbound : RouteList) (return_ : option RouteList)
| ErrorBody (error : string).

Definition origin_destination_message : string :=
  "Both origin and destination are required".

Definition key_missing_message : string :=
  "Aviation Stack API key not configured".

Definition failed_message : string :=
  "Failed to fetch flight routes. Please try again.".

(** The request for the routes from [dep] to [arr]. *)
Definition routes_url (key dep arr : string) : URL :=
  let u := new_URL (AVIATIONSTACK_BASE_URL +:+ "/routes") in
  let u := url_set u "access_key" key in
  let u := url_set u "dep_iata" dep in
  let u := url_set u "arr_iata" arr in
  url_set u "limit" "25".

Local Open Scope io_scope.

(** The second request and its decoding: the body of
    [if (returnDate) { ... }], giving the value of [returnRoutes]. *)
Definition fetch_return (key origin destination returnDate : string)
  : io URL RoutesPayload (list FlightRoute) :=
  if Js.truthy_string returnDate then
    returnResponse <- IO.fetch (routes_url key destination origin) ;;
    returnData <- IO.json returnResponse ;;
    match payload_error returnData with
    | None => IO.ret (map_routes (default [] (payload_data returnData)))
    | Some _ => IO.ret []
    end
  else IO.ret [].

(** The body of the handler's answer when nothing failed. *)
Definition found (origin destination departureDate returnDate : string)
    (outboundRoutes returnRoutes : list FlightRoute) : RoutesBody :=
  RoutesFound
    {| routes := outboundRoutes;
       list_origin := origin;
       list_destination := destination;
       list_date := departureDate |}
    (if Js.truthy_string returnDate
     then Some {| routes := returnRoutes;
                  list_origin := destination;
                  list_destination := origin;
                  list_date := returnDate |}
     else None).

Definition GET (AVIATIONSTACK_API_KEY : option string) (searchParams : SearchParams)
  : io URL RoutesPayload (Response RoutesBody) :=
  let normalized name :=
    Js.or_string
      (option_map (fun s => Js.trim (Js.toUpperCase s)) (searchParams_get searchParams name))
      "" in
  let origin := normalized "origin" in
  let destination := normalized "destination" in
  let departureDate := Js.or_string (searchParams_get searchParams "departureDate") "" in
  let returnDate := Js.or_string (searchParams_get searchParams "returnDate") "" in
  if negb (Js.truthy_string origin) || negb (Js.truthy_string destination) then
    IO.ret (json_response_with (ErrorBody origin_destination_message) 400)
  else if negb (Js.truthy_string (Js.or_string AVIATIONSTACK_API_KEY "")) then
    IO.ret (json_response_with (ErrorBody key_missing_message) 500)
  else
    let key := Js.or_string AVIATIONSTACK_API_KEY "" in
    IO.try_catch
      (outboundResponse <- IO.fetch (routes_url key origin destination) ;;
       outboundData <- IO.json outboundResponse ;;
       match payload_error outboundData with
       | Some e =>
           IO.ret (json_response_with
                     (ErrorBody (Js.or_string (error_message e) "Failed to fetch flight routes"))
                     400)
       | None =>
           let outboundRoutes := map_routes (default [] (payload_data outboundData)) in
           returnRoutes <- fetch_return key origin destination returnDate ;;
           IO.ret (json_response
                     (found origin destination departureDate returnDate
                        outboundRoutes returnRoutes))
       end)
      (fun _ => IO.ret (json_response_with (ErrorBody failed_message) 500)).

End Routes.

(* ===================================================================== *)
(** ** The specification's vocabulary                                     *)
(* ===================================================================== *)

(** Definitions that follow the words of the specification, to compare
    the handlers with. *)

Module Spec.

Fixpoint all_chars (p : ascii -> bool) (s : string) : bool :=
  match s with
  | EmptyString => true
  | String c r => p c && all_chars p r
  end.

(** "two letters then digits": two capital letters followed by one or
    more digits, and nothing else. *)
Definition is_flight_number (q : string) : bool :=
  match q with
  | String a (String b (String c r)) =>
      Js.is_upper a && Js.is_upper b && Js.is_digit c && all_chars Js.is_digit r
  | _ => false
  end.

(** "three letters": exactly three capital letters. *)
Definition is_airport_code (q : string) : bool :=
  match q with
  | String a (String b (String c EmptyString)) =>
      Js.is_upper a && Js.is_upper b && Js.is_upper c
  | _ => false
  end.

Inductive SearchKind : Type :=
| FlightNumberSearch
| DepartureAirportSearch
| AirlineCodeSearch.

(** The four rules of the query classifier, in their order. *)
Definition classify (q : string) : SearchKind :=
  if is_flight_number q then FlightNumberSearch
  else if is_airport_code q then DepartureAirportSearch
  else if (String.length q =? 2)%nat then AirlineCodeSearch
  else FlightNumberSearch.

(** The provider's field each kind of search is queried by. *)
Definition field_of (k : SearchKind) : string :=
  match k with
  | FlightNumberSearch => "flight_iata"
  | DepartureAirportSearch => "dep_iata"
  | AirlineCodeSearch => "airline_iata"
  end.

(** The request a classified query is sent as. *)
Definition search_request (key query flightDate : string) : URL :=
  {| url_base := "http://api.aviationstack.com/v1/flights";
     url_params :=
       [("access_key", key); (field_of (classify query), query)]
         ++ (if Js.truthy_string flightDate then [("flight_date", flightDate)] else [])
         ++ [("limit", "20")] |}.

(** A query made of white space only (the empty one included). *)
Definition whitespace_only (q : string) : bool := all_chars Js.is_space q.

(** "[{carrier-code}{sequence-index}]" *)
Definition synthesized_id (carrier : string) (index : nat) : string :=
  carrier +:+ Js.string_of_index index.

(** The items of the price transform in the order of their itineraries
    in the provider's array, before any sorting: each itinerary gives the
    item one turn of the loop pushes, or none. *)
Definition items_in_input_order (data : Prices.FlightApiResponse) : list Prices.PriceResult :=
  flat_map
    (Prices.loop_body
       (default ∅ (Prices.places data))
       (default ∅ (Prices.carriers data))
       (Js.or_string (Prices.data_currency data) "USD")
       [])
    (default [] (Prices.itineraries data)).

(** Ascending by price. *)
Definition price_le (a b : Prices.PriceResult) : Prop :=
  (Prices.price a <= Prices.price b)%Q.

(** The items of a list that cost [q]. *)
Definition priced (q : Js.number) (l : list Prices.PriceResult) : list Prices.PriceResult :=
  List.filter (fun r => Qeq_bool (Prices.price r) q) l.

(** A provider key is configured when the variable is set to a
    non-empty value. *)
Definition configured (key : option string) : bool :=
  Js.truthy_string (Js.or_string key "").

(** A request parameter is absent or empty. *)
Definition missing (params : SearchParams) (name : string) : Prop :=
  searchParams_get params name = None \/ searchParams_get params name = Some EmptyString.

(** What the handlers do to [q], [from], [to], [origin] and
    [destination] before they look at them. *)
Definition normalized (params : SearchParams) (name : string) : string :=
  Js.or_string
    (option_map (fun s => Js.trim (Js.toUpperCase s)) (searchParams_get params name))
    "".

End Spec.

(* ===================================================================== *)
(** ** Concrete inputs                                                    *)
(* ===================================================================== *)

Module Examples.

(** A provider that cannot be reached. *)
Definition unreachable {R D : Type} : upstream R D := fun _ _ => None.

(** A runtime that knows one zone. *)
Definition intl_utc (tz : string) : outcome (list Flights.DateTimePart) :=
  if String.eqb tz "UTC"
  then Returned [ {| Flights.part_type := "month"; Flights.part_value := "1" |};
                  {| Flights.part_type := "timeZoneName"; Flights.part_value := "UTC" |} ]
  else Thrown RangeError.

Definition endpoint (code : string) : Flights.AviationStackEndpoint :=
  {| Flights.ep_airport := code;
     Flights.ep_timezone := "UTC";
     Flights.ep_iata := code;
     Flights.ep_delay := None;
     Flights.ep_scheduled := "2024-01-01T10:00:00+00:00" |}.

(** American Airlines 100, JFK to LHR. *)
Definition aa100 : Flights.AviationStackFlight :=
  {| Flights.flight_status := Some "active";
     Flights.api_departure := endpoint "JFK";
     Flights.api_arrival := endpoint "LHR";
     Flights.api_airline :=
       {| Flights.airline_name := "American Airlines"; Flights.airline_iata := "AA" |};
     Flights.api_flight :=
       {| Flights.flight_number := "100"; Flights.flight_iata := "AA100" |};
     Flights.api_live := None |}.

Definition leg (dep arr : Z) (carrier : Z) : Prices.FlightApiLeg :=
  {| Prices.leg_id := "leg";
     Prices.origin_place_id := dep;
     Prices.destination_place_id := arr;
     Prices.leg_departure := "2024-01-01T10:00:00";
     Prices.leg_arrival := "2024-01-01T18:00:00";
     Prices.leg_duration := 480%Q;
     Prices.stop_count := 0%Q;
     Prices.marketing_carrier_ids := Some [carrier] |}.

Definition itinerary (name : string) (cost : Js.number) : Prices.FlightApiItinerary :=
  {| Prices.itinerary_id := name;
     Prices.pricing_options :=
       Some [ {| Prices.option_price :=
                   Some {| Prices.amount := cost; Prices.update_status := "current" |};
                 Prices.agent_ids := [];
                 Prices.items := Some [ {| Prices.url := "/book" |} ] |} ];
     Prices.legs := Some [leg 1 2 7] |}.

Definition jfk : Prices.FlightApiPlace :=
  {| Prices.place_id := 1; Prices.place_iata := "JFK";
     Prices.place_name := "New York John F. Kennedy"; Prices.place_type := "Airport" |}.

Definition lhr : Prices.FlightApiPlace :=
  {| Prices.place_id := 2; Prices.place_iata := "LHR";
     Prices.place_name := "London Heathrow"; Prices.place_type := "Airport" |}.

Definition british_airways : Prices.FlightApiCarrier :=
  {| Prices.carrier_id := 7; Prices.carrier_name := "British Airways";
     Prices.carrier_iata := "BA" |}.

(** Three itineraries, two of them at the same price, with every place
    and carrier known. *)
Definition fares : Prices.FlightApiResponse :=
  {| Prices.itineraries :=
       Some [itinerary "first" 300%Q; itinerary "second" 120%Q; itinerary "third" 300%Q];
     Prices.places := Some (<["1" := jfk]> (<["2" := lhr]> ∅));
     Prices.carriers := Some (<["7" := british_airways]> ∅);
     Prices.data_currency := Some "USD";
     Prices.data_error := None;
     Prices.data_message := None |}.

(** One itinerary, and no lookup table at all. *)
Definition fares_without_tables : Prices.FlightApiResponse :=
  {| Prices.itineraries := Some [itinerary "only" 300%Q];
     Prices.places := None;
     Prices.carriers := None;
     Prices.data_currency := None;
     Prices.data_error := None;
     Prices.data_message := None |}.

Definition ba117 : Routes.AviationStackRoute :=
  {| Routes.api_departure :=
       {| Routes.ep_airport := "Heathrow"; Routes.ep_timezone := "Europe/London";
          Routes.ep_iata := "LHR"; Routes.ep_terminal := Some "5";
          Routes.ep_time := "08:25:00" |};
     Routes.api_arrival :=
       {| Routes.ep_airport := "John F Kennedy"; Routes.ep_timezone := "America/New_York";
          Routes.ep_iata := "JFK"; Routes.ep_terminal := Some "7";
          Routes.ep_time := "11:20:00" |};
     Routes.api_airline :=
       {| Routes.airline_name := "British Airways"; Routes.airline_iata := "BA" |};
     Routes.flight_number := "117" |}.

Definition answer (d : Routes.RoutesPayload) : HttpResponse Routes.RoutesPayload :=
  {| resp_status := 200; resp_text := None; resp_json := Some d |}.

Definition routes_found : Routes.RoutesPayload :=
  {| Routes.payload_error := None; Routes.payload_data := Some [ba117] |}.

Definition routes_refused : Routes.RoutesPayload :=
  {| Routes.payload_error := Some {| error_message := Some "usage limit reached" |};
     Routes.payload_data := None |}.

(** A provider that answers the first request with one route and the
    second with an error payload. *)
Definition outbound_then_error : upstream URL Routes.RoutesPayload :=
  fun n _ =>
    match n with
    | O => Some (answer routes_found)
    | _ => Some (answer routes_refused)
    end.

(** A provider that answers the first request and cannot be reached for
    the second. *)
Definition outbound_then_down : upstream URL Routes.RoutesPayload :=
  fun n _ =>
    match n with
    | O => Some (answer routes_found)
    | _ => None
    end.

Definition round_trip : SearchParams :=
  [("origin", "lhr"); ("destination", "jfk");
   ("departureDate", "2024-01-01"); ("returnDate", "2024-01-08")].

End Examples.

(* ===================================================================== *)
(** ** The page: [src/app/page.tsx]                                       *)
(* ===================================================================== *)

Module Page.

(** The state of the component [Home], one field for each [useState]. *)
Record State : Type := {
  query : string;
  flights : list Flights.Flight;
  loading : bool;
  searched : bool;
  error : option string;
}.

Definition setQuery (st : State) (v : string) : State :=
  {| query := v; flights := flights st; loading := loading st;
     searched := searched st; error := error st |}.

Definition setFlights (st : State) (v : list Flights.Flight) : State :=
  {| query := query st; flights := v; loading := loading st;
     searched := searched st; error := error st |}.

Definition setLoading (st : State) (v : bool) : State :=
  {| query := query st; flights := flights st; loading := v;
     searched := searched st; error := error st |}.

Definition setSearched (st : State) (v : bool) : State :=
  {| query := query st; flights := flights st; loading := loading st;
     searched := v; error := error st |}.

Definition setError (st : State) (v : option string) : State :=
  {| query := query st; flights := flights st; loading := loading st;
     searched := searched st; error := v |}.

(** [useState('')], [useState([])], [useState(false)], [useState(false)],
    [useState(null)] *)
Definition initial : State :=
  {| query := ""; flights := []; loading := false; searched := false; error := None |}.

(** The decoded body of the answer of [/api/flights]. *)
Record SearchData : Type := {
  data_error : option string;
  data_flights : option (list Flights.Flight);
}.

(** The request of the page: the path and the [URLSearchParams] that go
    after the question mark. *)
Definition search_request (searchQuery : string) : URL :=
  url_set (new_URL "/api/flights") "q" searchQuery.

Local Open Scope io_scope.

(** [searchFlights]; the state goes in and the state after the last
    [set...] comes out.  This is one call on its own: the state is that of
    the component as this call changes it, without the changes another
    call or the input box make while this one waits for the answer. *)
Definition searchFlights (st : State) (searchQuery : string) : io URL SearchData State :=
  if negb (Js.truthy_string (Js.trim searchQuery)) then
    IO.ret (setSearched (setFlights st []) false)
  else
    let st := setLoading st true in
    let st := setSearched st true in
    let st := setError st None in
    st <- IO.try_catch
            (response <- IO.fetch (search_request searchQuery) ;;
             data <- IO.json response ;;
             if Js.truthy_string (Js.or_string (data_error data) "") then
               IO.ret (setFlights (setError st (data_error data)) [])
             else
               IO.ret (setFlights st (default [] (data_flights data))))
            (fun _ => IO.ret (setFlights st [])) ;;
    (* finally *)
    IO.ret (setLoading st false).

(** [handleSubmit]: the search of what the input box holds. *)
Definition handleSubmit (st : State) : io URL SearchData State :=
  searchFlights st (query st).

(** The [onClick] of a suggestion. *)
Definition suggest (st : State) (q : string) : io URL SearchData State :=
  searchFlights (setQuery st q) q.

(** *** What is rendered *)

(** [error && ...] *)
Definition has_error (st : State) : bool :=
  Js.truthy_string (Js.or_string (error st) "").

(** [{loading && (...)}] *)
Definition shows_loading (st : State) : bool := loading st.

(** [{!loading && error && (...)}] *)
Definition shows_error (st : State) : bool :=
  negb (loading st) && has_error st.

(** [{!loading && !error && searched && flights.length === 0 && (...)}] *)
Definition shows_empty (st : State) : bool :=
  negb (loading st) && negb (has_error st) && searched st
  && (length (flights st) =? 0)%nat.

(** [{!loading && flights.length > 0 && (...)}] *)
Definition shows_results (st : State) : bool :=
  negb (loading st) && (0 <? length (flights st))%nat.

(** The number of the four panels that are rendered. *)
Definition panels (st : State) : nat :=
  (if shows_loading st then 1 else 0) + (if shows_error st then 1 else 0)
  + (if shows_empty st then 1 else 0) + (if shows_results st then 1 else 0).

(** [statusStyles] *)
Definition statusStyles : gmap string string :=
  <["scheduled" := "bg-blue-50 text-blue-600"]>
  (<["boarding" := "bg-amber-50 text-amber-600"]>
  (<["departed" := "bg-violet-50 text-violet-600"]>
  (<["in-flight" := "bg-sky-50 text-sky-600"]>
  (<["active" := "bg-sky-50 text-sky-600"]>
  (<["landed" := "bg-emerald-50 text-emerald-600"]>
  (<["delayed" := "bg-orange-50 text-orange-600"]>
  (<["cancelled" := "bg-red-50 text-red-600"]> ∅))))))).

(** [s.replace('-', ' ')]: the first hyphen becomes a space. *)
Fixpoint replace_hyphen (s : string) : string :=
  match s with
  | EmptyString => EmptyString
  | String c r => if Ascii.eqb c "-" then String " " r else String c (replace_hyphen r)
  end.

(** The text of the badge of a flight. *)
Definition status_label (f : Flights.Flight) : string :=
  replace_hyphen (Flights.status_string (Flights.flight_state f)).

(** The style of the badge of a flight: [statusStyles[flight.status]]. *)
Definition status_style (f : Flights.Flight) : option string :=
  statusStyles !! Flights.status_string (Flights.flight_state f).

End Page.

(* ===================================================================== *)
(** ** The page and the search handler together                           *)
(* ===================================================================== *)

Module Site.

(** The body of an answer of the search handler, as the page decodes it. *)
Definition decoded (b : Flights.SearchBody) : Page.SearchData :=
  match b with
  | Flights.FlightsBody fl => {| Page.data_error := None; Page.data_flights := Some fl |}
  | Flights.ErrorBody e => {| Page.data_error := Some e; Page.data_flights := None |}
  end.

(** The route [/api/flights] seen from the page: a request is answered by
    the search handler, run on the parameters of the request against the
    provider; a handler that throws leaves an answer without a JSON
    body. *)
Definition api (intl : string -> outcome (list Flights.DateTimePart))
    (key : option string) (provider : upstream URL Flights.FlightsPayload)
  : upstream URL Page.SearchData :=
  fun _ req =>
    match fst (IO.run (Flights.GET intl key (url_params req)) provider) with
    | Returned r =>
        Some {| resp_status := status r; resp_text := None;
                resp_json := Some (decoded (body r)) |}
    | Thrown _ =>
        Some {| resp_status := 500; resp_text := None; resp_json := None |}
    end.

End Site.

(* ===================================================================== *)
(** ** Well-formed requests                                               *)
(* ===================================================================== *)

Module Checks.

(** Four digits, a hyphen, two digits, a hyphen and two digits. *)
Definition is_iso_date (s : string) : bool :=
  match s with
  | String y1 (String y2 (String y3 (String y4 (String h1
      (String m1 (String m2 (String h2 (String d1 (String d2 EmptyString))))))))) =>
      Js.is_digit y1 && Js.is_digit y2 && Js.is_digit y3 && Js.is_digit y4
      && Ascii.eqb h1 "-" && Js.is_digit m1 && Js.is_digit m2
      && Ascii.eqb h2 "-" && Js.is_digit d1 && Js.is_digit d2
  | _ => false
  end.

(** The date of a pricing request, empty when there is none. *)
Definition date_of (params : SearchParams) : string :=
  Js.or_string (searchParams_get params "date") "".

(** The three parameters of a pricing request are there. *)
Definition pricing_present (params : SearchParams) : bool :=
  Js.truthy_string (Spec.normalized params "from")
  && Js.truthy_string (Spec.normalized params "to")
  && Js.truthy_string (date_of params).

(** A pricing request that passes the three checks of its handler. *)
Definition pricing_ok (params : SearchParams) : bool :=
  Spec.is_airport_code (Spec.normalized params "from")
  && Spec.is_airport_code (Spec.normalized params "to")
  && is_iso_date (date_of params).

(** The request a well-formed pricing request is passed on as. *)
Definition pricing_url (key : string) (params : SearchParams) : string :=
  "https://api.flightapi.io/onewaytrip/" +:+ key
    +:+ "/" +:+ Spec.normalized params "from"
    +:+ "/" +:+ Spec.normalized params "to"
    +:+ "/" +:+ date_of params
    +:+ "/" +:+ Js.or_string (searchParams_get params "adults") "1"
    +:+ "/0/0/Economy/" +:+ Js.or_string (searchParams_get params "currency") "USD".

(** A routes request that passes the check of its handler. *)
Definition routes_ok (params : SearchParams) : bool :=
  Js.truthy_string (Spec.normalized params "origin")
  && Js.truthy_string (Spec.normalized params "destination").

(** The return date of a routes request, empty when there is none. *)
Definition return_date (params : SearchParams) : string :=
  Js.or_string (searchParams_get params "returnDate") "".

(** An itinerary the price transform makes an item of: it has a first
    pricing option and a first leg. *)
Definition priced_itinerary (it : Prices.FlightApiItinerary) : bool :=
  match Js.first (Prices.pricing_options it), Js.first (Prices.legs it) with
  | Some _, Some _ => true
  | _, _ => false
  end.

(** A string of ASCII characters only: every code is below 128. *)
Definition is_ascii (s : string) : bool :=
  Spec.all_chars (fun c => (Js.code c <? 128)%nat) s.

(** A delay that counts: a number above 15. *)
Definition over_15 (d : option Js.number) : Prop :=
  exists v, d = Some v /\ (15 < v)%Q.

(** The statuses of the provider that read as a delay. *)
Definition reads_delayed (apiStatus : option string) : bool :=
  let s := Js.or_string (option_map Js.toLowerCase apiStatus) "scheduled" in
  String.eqb s "incident" || String.eqb s "diverted".

End Checks.

(* ===================================================================== *)
(** ** More concrete inputs                                               *)
(* ===================================================================== *)

Module Samples.

Definition well_formed : SearchParams :=
  [("from", "jfk"); ("to", "LHR"); ("date", "2024-01-01")].

Definition reply (st : Z) (body : option Prices.FlightApiResponse)
  : HttpResponse Prices.FlightApiResponse :=
  {| resp_status := st; resp_text := Some "body"; resp_json := body |}.

(** A provider that answers every request the same way. *)
Definition always {R D : Type} (r : HttpResponse D) : upstream R D :=
  fun _ _ => Some r.

Definition refused : Prices.FlightApiResponse :=
  {| Prices.itineraries := None;
     Prices.places := None;
     Prices.carriers := None;
     Prices.data_currency := None;
     Prices.data_error := Some "bad request";
     Prices.data_message := Some "No flights for this route" |}.

Definition flights_found : Flights.FlightsPayload :=
  {| Flights.payload_error := None; Flights.payload_data := Some [Examples.aa100] |}.

Definition flights_refused : Flights.FlightsPayload :=
  {| Flights.payload_error := Some {| error_message := None |};
     Flights.payload_data := None |}.

Definition flights_reply (d : Flights.FlightsPayload) : HttpResponse Flights.FlightsPayload :=
  {| resp_status := 200; resp_text := None; resp_json := Some d |}.

Definition one_way : SearchParams :=
  [("origin", "lhr"); ("destination", "jfk")].

End Samples.

(* ===================================================================== *)
(** * Properties                                                          *)
(* ===================================================================== *)

(** ** Facts about the primitives *)

Module RegexFacts.

Import Regex.

Lemma test_Empty (s : string) : test Empty s = false.
Proof. induction s; simpl; auto. Qed.

Lemma test_Alt (a b : t) (s : string) : test (Alt a b) s = test a s || test b s.
Proof. revert a b; induction s; intros; simpl; auto. Qed.

Lemma test_Seq_Empty (b : t) (s : string) : test (Seq Empty b) s = false.
Proof. induction s; simpl; auto. Qed.

Lemma test_Seq_Eps (b : t) (s : string) : test (Seq Eps b) s = test b s.
Proof.
  destruct s; simpl; auto.
  rewrite test_Alt, test_Seq_Empty. reflexivity.
Qed.

Lemma test_Eps (s : string) :
  test Eps s = match s with EmptyString => true | String _ _ => false end.
Proof. destruct s; simpl; auto using test_Empty. Qed.

(** A class in front: the first character is in it, the rest goes on. *)
Lemma test_Seq_Class (p : ascii -> bool) (b : t) (s : string) :
  test (Seq (Class p) b) s =
  match s with
  | EmptyString => false
  | String c r => p c && test b r
  end.
Proof.
  destruct s as [|c r]; simpl; auto.
  destruct (p c); simpl; auto using test_Seq_Eps, test_Seq_Empty.
Qed.

(** [c*] matches the strings made of the class. *)
Lemma test_Star_Class (p : ascii -> bool) (s : string) :
  test (Star (Class p)) s = Spec.all_chars p s.
Proof.
  induction s as [|c r IH]; simpl; auto.
  destruct (p c); simpl.
  - rewrite test_Seq_Eps. exact IH.
  - apply test_Seq_Empty.
Qed.

(** The flight-number pattern says what the specification says. *)
Lemma flightNumberPattern_shape (q : string) :
  test Flights.flightNumberPattern q = Spec.is_flight_number q.
Proof.
  unfold Flights.flightNumberPattern, Plus, Spec.is_flight_number. simpl Repeat.
  rewrite test_Seq_Class. destruct q as [|a q]; auto.
  rewrite test_Seq_Class. destruct q as [|b q]; [destruct (Js.is_upper a); auto |].
  rewrite test_Seq_Class. destruct q as [|c q].
  { destruct (Js.is_upper a), (Js.is_upper b); auto. }
  rewrite test_Star_Class.
  destruct (Js.is_upper a), (Js.is_upper b), (Js.is_digit c); auto.
Qed.

(** So does the airport pattern. *)
Lemma airportPattern_shape (q : string) :
  test airportPattern q = Spec.is_airport_code q.
Proof.
  unfold airportPattern, Spec.is_airport_code. simpl Repeat.
  rewrite test_Seq_Class. destruct q as [|a q]; auto.
  rewrite test_Seq_Class. destruct q as [|b q]; [destruct (Js.is_upper a); auto |].
  rewrite test_Seq_Class. destruct q as [|c q].
  { destruct (Js.is_upper a), (Js.is_upper b); auto. }
  rewrite test_Eps.
  destruct (Js.is_upper a), (Js.is_upper b), (Js.is_upper c), q; auto.
Qed.

End RegexFacts.

Module JsFacts.

Lemma truthy_string_true (s : string) : Js.truthy_string s = true <-> s <> EmptyString.
Proof. destruct s; simpl; split; congruence. Qed.

Lemma truthy_string_false (s : string) : Js.truthy_string s = false <-> s = EmptyString.
Proof. destruct s; simpl; split; congruence. Qed.

(** White space is not a letter: the case conversion leaves it alone. *)
Lemma upper_char_space (c : ascii) : Js.is_space c = true -> Js.upper_char c = c.
Proof.
  unfold Js.upper_char, Js.is_space, Js.is_lower, Js.in_range. intros H.
  destruct ((97 <=? Js.code c)%nat && (Js.code c <=? 122)%nat) eqn:E; auto.
  exfalso. apply andb_true_iff in E as [E1 E2].
  apply Nat.leb_le in E1, E2.
  apply orb_true_iff in H as [H | H].
  - apply andb_true_iff in H as [_ H]. apply Nat.leb_le in H. lia.
  - apply Nat.eqb_eq in H. lia.
Qed.

Lemma toUpperCase_whitespace (s : string) :
  Spec.whitespace_only s = true -> Js.toUpperCase s = s.
Proof.
  induction s as [|c r IH]; simpl; auto.
  intros H. apply andb_true_iff in H as [Hc Hr].
  unfold Js.toUpperCase in *. simpl. rewrite upper_char_space, IH; auto.
Qed.

Lemma trimStart_whitespace (s : string) :
  Spec.whitespace_only s = true -> Js.trimStart s = EmptyString.
Proof.
  induction s as [|c r IH]; simpl; auto.
  intros H. apply andb_true_iff in H as [Hc Hr]. rewrite Hc. auto.
Qed.

(** A query of white space only is empty once upper-cased and trimmed. *)
Lemma trim_whitespace (s : string) :
  Spec.whitespace_only s = true -> Js.trim (Js.toUpperCase s) = EmptyString.
Proof.
  intros H. rewrite toUpperCase_whitespace by exact H.
  unfold Js.trim. rewrite trimStart_whitespace by exact H. reflexivity.
Qed.

End JsFacts.

(** ** The search handler *)

Module FlightsFacts.

Import Flights.

(** The chain of tests of the handler is the classifier of the
    specification. *)
Lemma search_field_classify (query : string) :
  search_field query = Spec.field_of (Spec.classify query).
Proof.
  unfold search_field, Spec.classify.
  rewrite RegexFacts.flightNumberPattern_shape, RegexFacts.airportPattern_shape.
  destruct (Spec.is_flight_number query); auto.
  destruct (Spec.is_airport_code query); auto.
  destruct (String.length query =? 2)%nat; auto.
Qed.

End FlightsFacts.

(** ** What a handler sends *)

Module IOFacts.

Section Log.
Context {R D : Type}.

Lemma silent_ret {A : Type} (a : A) : IO.silent (R:=R) (D:=D) (IO.ret a).
Proof. intros up log. reflexivity. Qed.

Lemma silent_throw {A : Type} (e : exn) : IO.silent (R:=R) (D:=D) (IO.throw (A:=A) e).
Proof. intros up log. reflexivity. Qed.

Lemma silent_lift {A : Type} (m : outcome A) : IO.silent (R:=R) (D:=D) (IO.lift m).
Proof. intros up log. reflexivity. Qed.

Lemma silent_json (r : HttpResponse D) : IO.silent (R:=R) (IO.json r).
Proof. unfold IO.json. destruct (resp_json r); auto using silent_ret, silent_throw. Qed.

Lemma silent_text (r : HttpResponse D) : IO.silent (R:=R) (IO.text r).
Proof. unfold IO.text. destruct (resp_text r); auto using silent_ret, silent_throw. Qed.

Lemma silent_bind {A B : Type} (m : io R D A) (k : A -> io R D B) :
  IO.silent m -> (forall a, IO.silent (k a)) -> IO.silent (IO.bind m k).
Proof.
  intros Hm Hk up log. unfold IO.bind.
  specialize (Hm up log). destruct (m up log) as [[a | e] log']; simpl in Hm; subst.
  - apply Hk.
  - reflexivity.
Qed.

(** A handler that catches with a silent handler sends what its body
    sends. *)
Lemma log_try_catch {A : Type} (m : io R D A) (h : exn -> io R D A) up log :
  (forall e, IO.silent (h e)) ->
  snd (IO.try_catch m h up log) = snd (m up log).
Proof.
  intros Hh. unfold IO.try_catch.
  destruct (m up log) as [[a | e] log']; simpl; [reflexivity | apply Hh].
Qed.

(** One [fetch] followed by silent code sends one request. *)
Lemma log_fetch_bind {A : Type} (req : R) (k : HttpResponse D -> io R D A) up log :
  (forall r, IO.silent (k r)) ->
  snd (IO.bind (IO.fetch req) k up log) = log ++ [req].
Proof.
  intros Hk. unfold IO.bind, IO.fetch.
  destruct (up (length log) req); simpl; [apply Hk | reflexivity].
Qed.

End Log.

End IOFacts.

Create HintDb io_log.

#[export] Hint Resolve IOFacts.silent_ret IOFacts.silent_throw IOFacts.silent_lift
  IOFacts.silent_json IOFacts.silent_text : io_log.

(** ** The search handler *)

Module SearchHandler.

Import Flights.

Lemma delay_over_15_true (d : Js.number) : (15 < d)%Q -> delay_over_15 (Some d) = true.
Proof.
  intros H. unfold delay_over_15, Js.truthy_number, Js.gt.
  apply andb_true_iff; split; apply negb_true_iff.
  - destruct (Qeq_bool d 0) eqn:E; auto.
    apply Qeq_bool_iff in E. rewrite E in H. discriminate H.
  - destruct (Qle_bool d 15) eqn:E; auto.
    apply Qle_bool_iff in E. exfalso. revert E. apply Qlt_not_le. exact H.
Qed.

(** C1. Whatever the provider's status string, a departure or an arrival
    delay of more than 15 minutes makes [mapStatus] answer "delayed". *)
Theorem mapStatus_delay_precedence
    (apiStatus : option string) (depDelay arrDelay : option Js.number) :
  (exists d, depDelay = Some d /\ (15 < d)%Q) \/
  (exists d, arrDelay = Some d /\ (15 < d)%Q) ->
  status_string (mapStatus apiStatus depDelay arrDelay) = "delayed".
Proof.
  intros [[d [-> H]] | [d [-> H]]]; unfold mapStatus;
    rewrite (delay_over_15_true d H).
  - reflexivity.
  - rewrite orb_true_r. reflexivity.
Qed.

Lemma mapStatus_delay_precedence_witness :
  status_string (mapStatus (Some "active") None (Some 20%Q)) = "delayed".
Proof.
  apply mapStatus_delay_precedence.
  right. exists 20%Q. split; reflexivity.
Defined.

Section WithRuntime.

Variable intl : string -> outcome (list DateTimePart).

(** The full behaviour of [formatTimezone]: it always returns. *)
Lemma formatTimezone_value (tz : string) :
  formatTimezone intl tz =
  Returned
    (match tz, intl tz with
     | EmptyString, _ => EmptyString
     | _, Returned parts => tz +:+ " (" +:+ timeZoneName_of parts +:+ ")"
     | _, Thrown _ => tz
     end).
Proof.
  unfold formatTimezone. destruct tz as [|c r]; simpl; auto.
  destruct (intl (String c r)); reflexivity.
Qed.

(** The runtime refuses the empty name, which is not the name of a
    zone. *)
Hypothesis intl_empty : exists e, intl EmptyString = Thrown e.

(** The short name the handler reads off the parts: the value of the
    first part of the type [timeZoneName]. *)
Lemma timeZoneName_of_first (before after : list DateTimePart) (p : DateTimePart) :
  part_type p = "timeZoneName" ->
  Forall (fun q => part_type q <> "timeZoneName") before ->
  timeZoneName_of (before ++ p :: after) = part_value p.
Proof using Type.
  intros Hp Hbefore. unfold timeZoneName_of.
  induction Hbefore as [|q before Hq Hbefore IH]; simpl.
  - rewrite Hp. simpl. destruct (part_value p); reflexivity.
  - apply String.eqb_neq in Hq. rewrite Hq. exact IH.
Qed.

(** Without a part of the type [timeZoneName] there is no short name. *)
Lemma timeZoneName_of_none (parts : list DateTimePart) :
  Forall (fun q => part_type q <> "timeZoneName") parts ->
  timeZoneName_of parts = EmptyString.
Proof using Type.
  intros Hparts. unfold timeZoneName_of.
  induction Hparts as [|q parts Hq Hparts IH]; simpl; [reflexivity |].
  apply String.eqb_neq in Hq. rewrite Hq. exact IH.
Qed.

(** C8. [formatTimezone] is total.  When the runtime formats the zone, it
    returns the name followed, in brackets, by the short name the runtime
    gave: the value of the first part of the type [timeZoneName] among the
    parts, and nothing between the brackets when the runtime gave no such
    part.  When the runtime throws, it returns the name as it came.  It
    never throws itself. *)
Theorem formatTimezone_total (tz : string) :
  (forall (before after : list DateTimePart) (p : DateTimePart),
     intl tz = Returned (before ++ p :: after) ->
     part_type p = "timeZoneName" ->
     Forall (fun q => part_type q <> "timeZoneName") before ->
     formatTimezone intl tz = Returned (tz +:+ " (" +:+ part_value p +:+ ")"))
  /\ (forall parts : list DateTimePart,
        intl tz = Returned parts ->
        Forall (fun q => part_type q <> "timeZoneName") parts ->
        formatTimezone intl tz = Returned (tz +:+ " ()"))
  /\ (forall e, intl tz = Thrown e -> formatTimezone intl tz = Returned tz)
  /\ (exists s, formatTimezone intl tz = Returned s).
Proof using intl_empty.
  rewrite formatTimezone_value. split; [| split; [| split]].
  - intros before after p H Hp Hbefore. destruct tz as [|c r].
    + destruct intl_empty as [e He]. congruence.
    + rewrite H, (timeZoneName_of_first before after p Hp Hbefore). reflexivity.
  - intros parts H Hparts. destruct tz as [|c r].
    + destruct intl_empty as [e He]. congruence.
    + rewrite H, (timeZoneName_of_none parts Hparts). reflexivity.
  - intros e H. destruct tz as [|c r]; [reflexivity |]. rewrite H. reflexivity.
  - eexists. reflexivity.
Qed.

End WithRuntime.

Lemma formatTimezone_total_witness :
  formatTimezone Examples.intl_utc "UTC" = Returned "UTC (UTC)"
  /\ formatTimezone Examples.intl_utc "Mars/Olympus" = Returned "Mars/Olympus".
Proof.
  split.
  - apply (proj1 (formatTimezone_total Examples.intl_utc
             (ex_intro _ RangeError eq_refl) "UTC")
             [ {| part_type := "month"; part_value := "1" |} ] []
             {| part_type := "timeZoneName"; part_value := "UTC" |}).
    + reflexivity.
    + reflexivity.
    + constructor; [discriminate | constructor].
  - apply (proj1 (proj2 (proj2 (formatTimezone_total Examples.intl_utc
             (ex_intro _ RangeError eq_refl) "Mars/Olympus"))) RangeError).
    reflexivity.
Defined.

End SearchHandler.

Module SearchRequests.

Import Flights.

(** The request the handler builds is the one the specification
    describes. *)
Lemma search_url_classified (key query flightDate : string) :
  search_url key query flightDate = Spec.search_request key query flightDate.
Proof.
  unfold search_url, Spec.search_request. cbv zeta.
  rewrite FlightsFacts.search_field_classify.
  destruct (Spec.classify query), (Js.truthy_string flightDate); reflexivity.
Qed.

Lemma respond_silent intl (response : HttpResponse FlightsPayload) :
  IO.silent (respond intl response).
Proof.
  unfold respond. apply IOFacts.silent_bind; auto with io_log.
  intros data. destruct (payload_error data); auto with io_log.
  apply IOFacts.silent_bind; auto with io_log.
Qed.

(** The query as the handler looks at it is empty exactly when [q] is
    left out or trims to nothing. *)
Lemma blank_query_normalized (params : SearchParams) :
  match searchParams_get params "q" with
  | None => True
  | Some q => Spec.whitespace_only q = true
  end ->
  Spec.normalized params "q" = EmptyString.
Proof.
  unfold Spec.normalized. destruct (searchParams_get params "q") as [q|]; simpl; auto.
  intros H. rewrite JsFacts.trim_whitespace by exact H. reflexivity.
Qed.

(** C2. The handler's chain of tests is the classifier of the
    specification: flight-number search for two capital letters followed by
    digits, else departure-airport search for three capital letters, else
    airline-code search for two characters, else flight-number search.  And
    no query is turned away: with a key configured, every query that is not
    empty is sent to the provider, once, in the field the classifier
    chose. *)
Theorem classifier_rules :
  (forall query, search_field query = Spec.field_of (Spec.classify query))
  /\ (forall intl key params up,
        Spec.normalized params "q" <> EmptyString ->
        Spec.configured key = true ->
        snd (IO.run (GET intl key params) up)
        = [Spec.search_request (Js.or_string key "") (Spec.normalized params "q")
             (Js.or_string (searchParams_get params "date") "")]).
Proof.
  split; [exact FlightsFacts.search_field_classify |].
  intros intl key params up Hq Hk.
  apply JsFacts.truthy_string_true in Hq.
  unfold Spec.configured in Hk. unfold Spec.normalized in *.
  unfold IO.run, GET. cbv zeta. rewrite Hq, Hk. cbn [negb].
  rewrite IOFacts.log_try_catch by auto with io_log.
  rewrite IOFacts.log_fetch_bind by apply respond_silent.
  rewrite search_url_classified. reflexivity.
Qed.

Lemma classifier_rules_witness :
  search_field "JFK" = "dep_iata"
  /\ snd (IO.run (GET Examples.intl_utc (Some "secret") [("q", " aa100 ")])
            Examples.unreachable)
     = [ {| url_base := "http://api.aviationstack.com/v1/flights";
            url_params := [("access_key", "secret"); ("flight_iata", "AA100");
                           ("limit", "20")] |} ].
Proof.
  split.
  - apply (proj1 classifier_rules "JFK").
  - apply (proj2 classifier_rules Examples.intl_utc (Some "secret") [("q", " aa100 ")]
             Examples.unreachable).
    + vm_compute. discriminate.
    + reflexivity.
Defined.

(** C10. Without [q], or with a [q] that is empty or white space only, the
    handler answers 200 with an empty list of flights, whatever the key is
    (configured or not) and without a request to the provider. *)
Theorem blank_query_succeeds intl key (params : SearchParams)
    (up : upstream URL FlightsPayload) :
  match searchParams_get params "q" with
  | None => True
  | Some q => Spec.whitespace_only q = true
  end ->
  IO.run (GET intl key params) up
  = (Returned {| status := 200; body := FlightsBody [] |}, []).
Proof.
  intros H. apply blank_query_normalized in H. unfold Spec.normalized in H.
  unfold IO.run, GET. cbv zeta. rewrite H. reflexivity.
Qed.

Lemma blank_query_succeeds_witness :
  IO.run (GET Examples.intl_utc None [("q", "   "); ("date", "2024-01-01")])
    Examples.unreachable
  = (Returned {| status := 200; body := FlightsBody [] |}, []).
Proof.
  apply blank_query_succeeds. reflexivity.
Defined.

(** With a query and without a key: the configuration error. *)
Lemma search_key_missing intl key (params : SearchParams)
    (up : upstream URL FlightsPayload) :
  Spec.normalized params "q" <> EmptyString ->
  Spec.configured key = false ->
  IO.run (GET intl key params) up
  = (Returned {| status := 500; body := ErrorBody key_missing_message |}, []).
Proof.
  intros Hq Hk. apply JsFacts.truthy_string_true in Hq.
  unfold Spec.configured in Hk. unfold Spec.normalized in *.
  unfold IO.run, GET. cbv zeta. rewrite Hq, Hk. reflexivity.
Qed.

End SearchRequests.

(** ** Sorting by a numeric key *)

Module SortFacts.

Import JsArray.

Section ByKey.

Context {A : Type}.
Variable compareFn : A -> A -> Js.number.
Variable key : A -> Js.number.

(** The comparison is the difference of the keys. *)
Hypothesis compare_key : forall a b, compareFn a b = (key a - key b)%Q.

Lemma after_true (a b : A) : after compareFn a b = true -> (key b < key a)%Q.
Proof using compare_key.
  unfold after, Js.gt. rewrite compare_key. intros H.
  apply negb_true_iff in H.
  destruct (Qlt_le_dec (key b) (key a)) as [Hlt | Hle]; auto.
  assert (E : Qle_bool (key a - key b) 0 = true) by (apply Qle_bool_iff; lra).
  congruence.
Qed.

Lemma after_false (a b : A) : after compareFn a b = false -> (key a <= key b)%Q.
Proof using compare_key.
  unfold after, Js.gt. rewrite compare_key. intros H.
  apply negb_false_iff, Qle_bool_iff in H. lra.
Qed.

Lemma insert_Forall (P : A -> Prop) (x : A) (l : list A) :
  P x -> Forall P l -> Forall P (insert compareFn x l).
Proof.
  intros Hx Hl. induction Hl as [|y r Hy Hr IH]; simpl.
  - constructor; auto.
  - destruct (after compareFn x y); repeat constructor; auto.
Qed.

Lemma insert_sorted (x : A) (l : list A) :
  StronglySorted (key_le key) l -> StronglySorted (key_le key) (insert compareFn x l).
Proof using compare_key.
  intros Hl. induction Hl as [|y r Hr IH Hy]; simpl.
  - repeat constructor.
  - destruct (after compareFn x y) eqn:E.
    + apply after_true in E. constructor; auto.
      apply insert_Forall; auto. unfold key_le. lra.
    + apply after_false in E. constructor; [constructor; auto |].
      constructor; [exact E |].
      eapply List.Forall_impl; [| exact Hy]. unfold key_le. intros z Hz. simpl in Hz. lra.
Qed.

(** The sort puts the keys in ascending order. *)
Lemma sort_sorted (l : list A) : StronglySorted (key_le key) (sort compareFn l).
Proof using compare_key.
  induction l; simpl; [constructor | apply insert_sorted; assumption].
Qed.

Lemma insert_perm (x : A) (l : list A) : Permutation (x :: l) (insert compareFn x l).
Proof.
  induction l as [|y r IH]; simpl; auto.
  destruct (after compareFn x y); auto.
  rewrite perm_swap. constructor. exact IH.
Qed.

(** The sort keeps every element, as often as it occurs. *)
Lemma sort_perm (l : list A) : Permutation l (sort compareFn l).
Proof.
  induction l as [|x r IH]; simpl; auto.
  rewrite <- insert_perm. constructor. exact IH.
Qed.

Lemma insert_keyed (q : Js.number) (x : A) (l : list A) :
  keyed key q (insert compareFn x l) = keyed key q (x :: l).
Proof using compare_key.
  induction l as [|y r IH]; auto.
  simpl insert. destruct (after compareFn x y) eqn:E; auto.
  apply after_true in E.
  unfold keyed in *. simpl in *. rewrite IH.
  destruct (Qeq_bool (key y) q) eqn:Ey, (Qeq_bool (key x) q) eqn:Ex; auto.
  apply Qeq_bool_iff in Ey, Ex. lra.
Qed.

(** The sort is stable: the elements with one key come out in the order
    they went in. *)
Lemma sort_keyed (q : Js.number) (l : list A) :
  keyed key q (sort compareFn l) = keyed key q l.
Proof using compare_key.
  induction l as [|x r IH]; auto.
  simpl sort. rewrite insert_keyed. unfold keyed in *. simpl. rewrite IH. reflexivity.
Qed.

End ByKey.

End SortFacts.

(** ** The price transform *)

Module PriceTransform.

Import Prices.

Section Loop.

Variable tbl_places : gmap string FlightApiPlace.
Variable tbl_carriers : gmap string FlightApiCarrier.
Variable cur : string.

Lemma loop_body_app (results : list PriceResult) (itinerary : FlightApiItinerary) :
  loop_body tbl_places tbl_carriers cur results itinerary
  = results ++ loop_body tbl_places tbl_carriers cur [] itinerary.
Proof.
  unfold loop_body.
  destruct (Js.first (pricing_options itinerary)); [| symmetry; apply app_nil_r].
  destruct (Js.first (legs itinerary)); [reflexivity | symmetry; apply app_nil_r].
Qed.

(** The loop collects the items in the order of the itineraries. *)
Lemma loop_collects (its : list FlightApiItinerary) (results : list PriceResult) :
  fold_left (loop_body tbl_places tbl_carriers cur) its results
  = results ++ flat_map (loop_body tbl_places tbl_carriers cur []) its.
Proof.
  revert results. induction its as [|it its IH]; intros results; simpl.
  - symmetry. apply app_nil_r.
  - rewrite IH, loop_body_app, <- app_assoc. reflexivity.
Qed.

End Loop.

(** The transform sorts the items of the loop. *)
Lemma transform_sorts (data : FlightApiResponse) :
  transformPricingData data = JsArray.sort by_price (Spec.items_in_input_order data).
Proof.
  unfold transformPricingData, Spec.items_in_input_order. cbv zeta.
  rewrite loop_collects. reflexivity.
Qed.

(** The comparison by price is a consistent one, as a sort asks of its
    comparison function: an item equals itself, swapping the arguments
    swaps the sign, and the order it gives is transitive. *)
Lemma by_price_consistent (a b c : PriceResult) :
  (by_price a a == 0)%Q
  /\ ((by_price a b < 0)%Q <-> (0 < by_price b a)%Q)
  /\ ((by_price a b <= 0)%Q -> (by_price b c <= 0)%Q -> (by_price a c <= 0)%Q).
Proof. unfold by_price. repeat split; intros; lra. Qed.

(** The transform drops and repeats none of the items of the loop. *)
Lemma transform_perm (data : FlightApiResponse) :
  Permutation (Spec.items_in_input_order data) (transformPricingData data).
Proof. rewrite transform_sorts. apply SortFacts.sort_perm. Qed.

(** C3. The list [transformPricingData] returns is in ascending order of
    price, and the items of one price are in the order their itineraries
    have in the provider's array. *)
Theorem prices_sorted_stable (data : FlightApiResponse) :
  StronglySorted Spec.price_le (transformPricingData data)
  /\ (forall q : Js.number,
        Spec.priced q (transformPricingData data)
        = Spec.priced q (Spec.items_in_input_order data))
  /\ Permutation (Spec.items_in_input_order data) (transformPricingData data).
Proof.
  split; [| split].
  - rewrite transform_sorts. apply (SortFacts.sort_sorted by_price price). reflexivity.
  - intros q. rewrite transform_sorts.
    apply (SortFacts.sort_keyed by_price price). reflexivity.
  - apply transform_perm.
Qed.

(** An itinerary with a first pricing option and a first leg gives an
    item. *)
Lemma item_emitted (data : FlightApiResponse) (itinerary : FlightApiItinerary)
    (pricingOption : FlightApiPricingOption) (leg : FlightApiLeg) :
  In itinerary (default [] (itineraries data)) ->
  Js.first (pricing_options itinerary) = Some pricingOption ->
  Js.first (legs itinerary) = Some leg ->
  In (result_of (default ∅ (places data)) (default ∅ (carriers data))
        (Js.or_string (data_currency data) "USD") itinerary pricingOption leg)
     (transformPricingData data).
Proof.
  intros Hin Hpo Hleg.
  eapply Permutation_in; [apply transform_perm |].
  apply in_flat_map. exists itinerary. split; [exact Hin |].
  unfold loop_body. rewrite Hpo, Hleg. left. reflexivity.
Qed.

End PriceTransform.

Module PriceLookups.

Import Prices.

Example fares_sorted :
  map id (transformPricingData Examples.fares) = ["second"; "first"; "third"].
Proof. vm_compute. reflexivity. Qed.

(** The claim that every unresolvable field is the empty string fails for
    the name of the airline: without the carrier it reads "Unknown
    Airline". *)
Lemma unknown_airline_not_empty :
  map (fun r => (id r, airline r, airlineCode r))
      (transformPricingData Examples.fares_without_tables)
  = [("only", "Unknown Airline", "")]
  /\ "Unknown Airline" <> EmptyString.
Proof. split; [vm_compute; reflexivity | discriminate]. Qed.

(** C6, as the code has it. An itinerary with a first pricing option and a
    first leg gives an item of the result whatever the lookup tables hold:
    a place that is not in the table leaves the code and the name of that
    airport empty, a carrier that is not in the table leaves the airline
    code empty and makes the airline name "Unknown Airline". *)
Theorem missing_lookups_degrade (data : FlightApiResponse)
    (itinerary : FlightApiItinerary) (pricingOption : FlightApiPricingOption)
    (leg : FlightApiLeg) :
  In itinerary (default [] (itineraries data)) ->
  Js.first (pricing_options itinerary) = Some pricingOption ->
  Js.first (legs itinerary) = Some leg ->
  let tbl_places := default ∅ (places data) in
  let tbl_carriers := default ∅ (carriers data) in
  let item :=
    result_of tbl_places tbl_carriers (Js.or_string (data_currency data) "USD")
      itinerary pricingOption leg in
  In item (transformPricingData data)
  /\ (tbl_places !! key_of_number (Some (origin_place_id leg)) = None ->
      airport (departure item) = EmptyString
      /\ airportName (departure item) = EmptyString)
  /\ (tbl_places !! key_of_number (Some (destination_place_id leg)) = None ->
      airport (arrival item) = EmptyString
      /\ airportName (arrival item) = EmptyString)
  /\ (tbl_carriers !! key_of_number (Js.first (marketing_carrier_ids leg)) = None ->
      airlineCode item = EmptyString
      /\ airline item = "Unknown Airline").
Proof.
  intros Hin Hpo Hleg tbl_places tbl_carriers item.
  split; [apply PriceTransform.item_emitted; assumption |].
  subst item. unfold result_of. cbv zeta. simpl.
  repeat split; rewrite H; reflexivity.
Qed.

Lemma missing_lookups_degrade_witness :
  exists item,
    In item (transformPricingData Examples.fares_without_tables)
    /\ airport (departure item) = EmptyString
    /\ airlineCode item = EmptyString
    /\ airline item = "Unknown Airline".
Proof.
  pose proof (missing_lookups_degrade Examples.fares_without_tables
                (Examples.itinerary "only" 300%Q)
                {| option_price :=
                     Some {| amount := 300%Q; update_status := "current" |};
                   agent_ids := [];
                   items := Some [ {| url := "/book" |} ] |}
                (Examples.leg 1 2 7)
                (or_introl eq_refl) eq_refl eq_refl) as [Hin [Hdep [_ Hcar]]].
  eexists. split; [exact Hin |].
  split; [apply Hdep; reflexivity |].
  apply Hcar. reflexivity.
Defined.

End PriceLookups.

(** ** The pricing handler *)

Module PricingHandler.

Import Prices.

Lemma absent_missing (params : SearchParams) (name : string) :
  Spec.missing params name ->
  absent (option_map (fun s => Js.trim (Js.toUpperCase s)) (searchParams_get params name))
  = true
  /\ absent (searchParams_get params name) = true.
Proof. intros [H | H]; rewrite H; split; reflexivity. Qed.

(** C7. A pricing request in which [from], [to] or [date] is absent or
    empty is answered 400 with the message that names the three required
    parameters, and nothing is sent to the provider. *)
Theorem missing_parameters_rejected (key : option string) (params : SearchParams)
    (up : upstream string FlightApiResponse) :
  Spec.missing params "from" \/ Spec.missing params "to" \/ Spec.missing params "date" ->
  IO.run (GET key params) up
  = (Returned {| status := 400;
                 body := ErrorBody "Missing required parameters: from, to, date" |},
     []).
Proof.
  intros H. unfold IO.run, GET. cbv zeta.
  destruct H as [H | [H | H]]; apply absent_missing in H as [H1 H2].
  - rewrite H1. reflexivity.
  - rewrite H1, orb_true_r. reflexivity.
  - rewrite H2, orb_true_r. reflexivity.
Qed.

Lemma missing_parameters_rejected_witness :
  IO.run (GET (Some "secret") [("from", "JFK"); ("to", ""); ("date", "2024-01-01")])
    Examples.unreachable
  = (Returned {| status := 400;
                 body := ErrorBody "Missing required parameters: from, to, date" |},
     []).
Proof.
  apply missing_parameters_rejected.
  right; left. right. reflexivity.
Defined.

End PricingHandler.

(** ** A missing provider key *)

Module MissingKey.

Lemma airport_code_truthy (s : string) :
  Spec.is_airport_code s = true -> Js.truthy_string s = true.
Proof. destruct s; [discriminate | reflexivity]. Qed.

(** Pricing: with well-formed parameters and without a key, the
    configuration error. *)
Lemma pricing_key_missing (key : option string) (params : SearchParams)
    (up : upstream string Prices.FlightApiResponse) (date : string) :
  Spec.is_airport_code (Spec.normalized params "from") = true ->
  Spec.is_airport_code (Spec.normalized params "to") = true ->
  searchParams_get params "date" = Some date ->
  Regex.test Prices.datePattern date = true ->
  Spec.configured key = false ->
  IO.run (Prices.GET key params) up
  = (Returned {| status := 500; body := Prices.ErrorBody Prices.key_missing_message |}, []).
Proof.
  intros Hfrom Hto Hget Hdate Hkey.
  pose proof (airport_code_truthy _ Hfrom) as Tfrom.
  pose proof (airport_code_truthy _ Hto) as Tto.
  unfold Spec.configured in Hkey. unfold Spec.normalized in *.
  unfold IO.run, Prices.GET, Prices.absent. cbv zeta.
  rewrite Tfrom, Tto, Hget.
  destruct date as [|c r]; [discriminate Hdate |].
  cbn [Js.or_string Js.truthy_string negb orb].
  rewrite !RegexFacts.airportPattern_shape, Hfrom, Hto, Hdate, Hkey.
  reflexivity.
Qed.

(** Routes: with an origin and a destination and without a key, the
    configuration error. *)
Lemma routes_key_missing (key : option string) (params : SearchParams)
    (up : upstream URL Routes.RoutesPayload) :
  Spec.normalized params "origin" <> EmptyString ->
  Spec.normalized params "destination" <> EmptyString ->
  Spec.configured key = false ->
  IO.run (Routes.GET key params) up
  = (Returned {| status := 500; body := Routes.ErrorBody Routes.key_missing_message |}, []).
Proof.
  intros Ho Hd Hkey.
  apply JsFacts.truthy_string_true in Ho, Hd.
  unfold Spec.configured in Hkey. unfold Spec.normalized in *.
  unfold IO.run, Routes.GET. cbv zeta beta.
  rewrite Ho, Hd, Hkey. reflexivity.
Qed.

(** The claim that a missing key gives 500 whatever the parameters fails:
    a pricing request without parameters is answered 400, a search without
    a query 200, a routes request without an origin 400, all without a
    key. *)
Lemma validation_precedes_key :
  fst (IO.run (Prices.GET None []) Examples.unreachable)
  = Returned {| status := 400;
                body := Prices.ErrorBody "Missing required parameters: from, to, date" |}
  /\ fst (IO.run (Flights.GET Examples.intl_utc None []) Examples.unreachable)
     = Returned {| status := 200; body := Flights.FlightsBody [] |}
  /\ fst (IO.run (Routes.GET None [("destination", "JFK")]) Examples.unreachable)
     = Returned {| status := 400;
                   body := Routes.ErrorBody "Both origin and destination are required" |}.
Proof. repeat split. Qed.

(** C5, as the code has it. A request that passes the handler's own checks
    of its parameters (search: a query that is not empty once trimmed;
    pricing: [from] and [to] three capital letters and [date] of the form
    YYYY-MM-DD; routes: an origin and a destination that are not empty) is
    answered 500 with the handler's fixed configuration message when the
    provider key is not set, and nothing is sent to the provider. *)
Theorem key_missing_after_validation (key : option string) :
  Spec.configured key = false ->
  (forall intl params up,
     Spec.normalized params "q" <> EmptyString ->
     IO.run (Flights.GET intl key params) up
     = (Returned
          {| status := 500;
             body := Flights.ErrorBody
               "Aviation Stack API key not configured. Please set AVIATIONSTACK_API_KEY environment variable." |},
        []))
  /\ (forall params up date,
        Spec.is_airport_code (Spec.normalized params "from") = true ->
        Spec.is_airport_code (Spec.normalized params "to") = true ->
        searchParams_get params "date" = Some date ->
        Regex.test Prices.datePattern date = true ->
        IO.run (Prices.GET key params) up
        = (Returned
             {| status := 500;
                body := Prices.ErrorBody
                  "FlightAPI.io API key not configured. Please set FLIGHTAPI_KEY environment variable." |},
           []))
  /\ (forall params up,
        Spec.normalized params "origin" <> EmptyString ->
        Spec.normalized params "destination" <> EmptyString ->
        IO.run (Routes.GET key params) up
        = (Returned
             {| status := 500;
                body := Routes.ErrorBody "Aviation Stack API key not configured" |},
           [])).
Proof.
  intros Hkey. split; [| split].
  - intros intl params up Hq. apply SearchRequests.search_key_missing; assumption.
  - intros params up date Hfrom Hto Hget Hdate. eapply pricing_key_missing; eassumption.
  - intros params up Ho Hd. apply routes_key_missing; assumption.
Qed.

Lemma key_missing_after_validation_witness :
  IO.run (Flights.GET Examples.intl_utc None [("q", "aa100")]) Examples.unreachable
  = (Returned
       {| status := 500;
          body := Flights.ErrorBody
            "Aviation Stack API key not configured. Please set AVIATIONSTACK_API_KEY environment variable." |},
     [])
  /\ IO.run (Prices.GET (Some "")
               [("from", "jfk"); ("to", "LHR"); ("date", "2024-01-01")])
       Examples.unreachable
     = (Returned
          {| status := 500;
             body := Prices.ErrorBody
               "FlightAPI.io API key not configured. Please set FLIGHTAPI_KEY environment variable." |},
        [])
  /\ IO.run (Routes.GET None Examples.round_trip) Examples.unreachable
     = (Returned
          {| status := 500;
             body := Routes.ErrorBody "Aviation Stack API key not configured" |},
        []).
Proof.
  split; [| split].
  - apply (proj1 (key_missing_after_validation None eq_refl)).
    vm_compute. discriminate.
  - apply (proj1 (proj2 (key_missing_after_validation (Some "") eq_refl))
             _ _ "2024-01-01"); reflexivity.
  - apply (proj2 (proj2 (key_missing_after_validation None eq_refl)));
      vm_compute; discriminate.
Defined.

End MissingKey.

(** ** The routes handler and the return leg *)

Module ReturnRoutes.

Import Routes.

(** The claim that an error payload for the return routes is surfaced
    fails: the handler answers 200, with the outbound routes and an empty
    list of return routes. *)
Lemma return_error_absorbed :
  IO.run (GET (Some "secret") Examples.round_trip) Examples.outbound_then_error
  = (Returned
       {| status := 200;
          body :=
            RoutesFound
              {| routes := [transformRoute Examples.ba117 0];
                 list_origin := "LHR";
                 list_destination := "JFK";
                 list_date := "2024-01-01" |}
              (Some {| routes := [];
                       list_origin := "JFK";
                       list_destination := "LHR";
                       list_date := "2024-01-08" |}) |},
     [routes_url "secret" "LHR" "JFK"; routes_url "secret" "JFK" "LHR"]).
Proof. vm_compute. reflexivity. Qed.

(** The handler's run once the parameters and the key are there and the
    outbound request has been answered without an error: what is left is
    the return leg. *)
Lemma run_after_outbound (key : option string) (params : SearchParams)
    (up : upstream URL RoutesPayload)
    (response : HttpResponse RoutesPayload) (data : RoutesPayload) :
  Spec.normalized params "origin" <> EmptyString ->
  Spec.normalized params "destination" <> EmptyString ->
  Spec.configured key = true ->
  up 0 (routes_url (Js.or_string key "") (Spec.normalized params "origin")
          (Spec.normalized params "destination")) = Some response ->
  resp_json response = Some data ->
  payload_error data = None ->
  IO.run (GET key params) up
  = IO.try_catch
      (IO.bind
         (fetch_return (Js.or_string key "") (Spec.normalized params "origin")
            (Spec.normalized params "destination")
            (Js.or_string (searchParams_get params "returnDate") ""))
         (fun returnRoutes =>
            IO.ret (json_response
                      (found (Spec.normalized params "origin")
                         (Spec.normalized params "destination")
                         (Js.or_string (searchParams_get params "departureDate") "")
                         (Js.or_string (searchParams_get params "returnDate") "")
                         (map_routes (default [] (payload_data data))) returnRoutes))))
      (fun _ => IO.ret (json_response_with (ErrorBody failed_message) 500))
      up
      [routes_url (Js.or_string key "") (Spec.normalized params "origin")
         (Spec.normalized params "destination")].
Proof.
  intros Ho Hd Hkey Hup Hjson Herr.
  apply JsFacts.truthy_string_true in Ho, Hd.
  unfold Spec.configured in Hkey. unfold Spec.normalized in *.
  unfold IO.run, GET. cbv zeta beta. rewrite Ho, Hd, Hkey. cbn [negb orb].
  unfold IO.try_catch, IO.bind at 1 2 3, IO.fetch at 1. cbn [length app].
  rewrite Hup. unfold IO.json at 1. rewrite Hjson. cbn [IO.ret].
  rewrite Herr. reflexivity.
Qed.

(** C9, as the code has it. On a request with a return date whose outbound
    routes have been fetched: when the request for the return routes fails
    to be answered, or is answered by a body that is not JSON, the handler
    answers 500 with its generic message; when it is answered by an error
    payload, the handler answers 200 with the outbound routes and an empty
    list of return routes. *)
Theorem return_failure_handling (key : option string) (params : SearchParams)
    (up : upstream URL RoutesPayload)
    (response : HttpResponse RoutesPayload) (data : RoutesPayload) :
  Spec.normalized params "origin" <> EmptyString ->
  Spec.normalized params "destination" <> EmptyString ->
  Spec.configured key = true ->
  Js.or_string (searchParams_get params "returnDate") "" <> EmptyString ->
  up 0 (routes_url (Js.or_string key "") (Spec.normalized params "origin")
          (Spec.normalized params "destination")) = Some response ->
  resp_json response = Some data ->
  payload_error data = None ->
  let outbound_request :=
    routes_url (Js.or_string key "") (Spec.normalized params "origin")
      (Spec.normalized params "destination") in
  let return_request :=
    routes_url (Js.or_string key "") (Spec.normalized params "destination")
      (Spec.normalized params "origin") in
  (up 1 return_request = None
   \/ (exists r, up 1 return_request = Some r /\ resp_json r = None) ->
   IO.run (GET key params) up
   = (Returned {| status := 500;
                  body := ErrorBody "Failed to fetch flight routes. Please try again." |},
      [outbound_request; return_request]))
  /\ (forall r returnData e,
        up 1 return_request = Some r ->
        resp_json r = Some returnData ->
        payload_error returnData = Some e ->
        IO.run (GET key params) up
        = (Returned
             {| status := 200;
                body :=
                  found (Spec.normalized params "origin")
                    (Spec.normalized params "destination")
                    (Js.or_string (searchParams_get params "departureDate") "")
                    (Js.or_string (searchParams_get params "returnDate") "")
                    (map_routes (default [] (payload_data data))) [] |},
           [outbound_request; return_request])).
Proof.
  intros Ho Hd Hkey Hret Hup Hjson Herr outbound_request return_request.
  rewrite (run_after_outbound key params up response data Ho Hd Hkey Hup Hjson Herr).
  apply JsFacts.truthy_string_true in Hret.
  unfold fetch_return. rewrite Hret.
  fold outbound_request return_request.
  unfold IO.try_catch, IO.bind, IO.fetch. cbn [length].
  split.
  - intros [Hdown | [r [Hr Hbody]]].
    + rewrite Hdown. reflexivity.
    + rewrite Hr. unfold IO.json. rewrite Hbody. reflexivity.
  - intros r returnData e Hr Hbody He.
    rewrite Hr. unfold IO.json. rewrite Hbody. cbn [IO.ret IO.throw]. rewrite He.
    reflexivity.
Qed.

Lemma return_failure_handling_witness :
  fst (IO.run (GET (Some "secret") Examples.round_trip) Examples.outbound_then_down)
  = Returned {| status := 500;
                body := ErrorBody "Failed to fetch flight routes. Please try again." |}
  /\ fst (IO.run (GET (Some "secret") Examples.round_trip) Examples.outbound_then_error)
     = Returned
         {| status := 200;
            body :=
              found "LHR" "JFK" "2024-01-01" "2024-01-08"
                [transformRoute Examples.ba117 0] [] |}.
Proof.
  split.
  - pose proof (return_failure_handling (Some "secret") Examples.round_trip
                  Examples.outbound_then_down
                  (Examples.answer Examples.routes_found) Examples.routes_found) as H.
    specialize (H ltac:(vm_compute; discriminate) ltac:(vm_compute; discriminate)
                  eq_refl ltac:(vm_compute; discriminate) eq_refl eq_refl eq_refl).
    destruct H as [H _]. rewrite H; [reflexivity | left; reflexivity].
  - pose proof (return_failure_handling (Some "secret") Examples.round_trip
                  Examples.outbound_then_error
                  (Examples.answer Examples.routes_found) Examples.routes_found) as H.
    specialize (H ltac:(vm_compute; discriminate) ltac:(vm_compute; discriminate)
                  eq_refl ltac:(vm_compute; discriminate) eq_refl eq_refl eq_refl).
    destruct H as [_ H].
    rewrite (H (Examples.answer Examples.routes_refused) Examples.routes_refused
               {| error_message := Some "usage limit reached" |}); reflexivity.
Defined.

End ReturnRoutes.

(** ** Identifiers of the results *)

Module Identifiers.

(** [transformFlight] returns, whatever the runtime does. *)
Lemma transformFlight_returns intl (apiFlight : Flights.AviationStackFlight) (index : nat) :
  exists flight,
    Flights.transformFlight intl apiFlight index = Returned flight
    /\ Flights.id flight
       = Flights.flight_iata (Flights.api_flight apiFlight)
           +:+ "-" +:+ Js.string_of_index index.
Proof.
  unfold Flights.transformFlight. cbv zeta.
  rewrite !SearchHandler.formatTimezone_value. simpl.
  eexists. split; reflexivity.
Qed.

(** Reshaping a list of flights returns, flight for flight. *)
Lemma map_from_returns intl (l : list Flights.AviationStackFlight) (start : nat) :
  exists flights,
    Outcome.map_from (Flights.transformFlight intl) start l = Returned flights
    /\ length flights = length l.
Proof.
  revert start. induction l as [|a l IH]; intros start; simpl.
  - exists []. split; reflexivity.
  - destruct (transformFlight_returns intl a start) as [f [Hf _]].
    destruct (IH (S start)) as [fs [Hfs Hlen]].
    exists (f :: fs). rewrite Hf. simpl. rewrite Hfs. simpl.
    split; [reflexivity | congruence].
Qed.

(** The flights of a search, position by position. *)
Lemma map_from_flights intl (l : list Flights.AviationStackFlight) :
  forall (start : nat) (flights : list Flights.Flight),
    Outcome.map_from (Flights.transformFlight intl) start l = Returned flights ->
    forall (i : nat) (flight : Flights.Flight),
      flights !! i = Some flight ->
      exists apiFlight,
        l !! i = Some apiFlight
        /\ Flights.id flight
           = Flights.flight_iata (Flights.api_flight apiFlight)
               +:+ "-" +:+ Js.string_of_index (start + i).
Proof.
  induction l as [|a l IH]; intros start flights Hmap i flight Hi; simpl in Hmap.
  - injection Hmap as <-. discriminate Hi.
  - destruct (transformFlight_returns intl a start) as [f [Hf Hid]].
    rewrite Hf in Hmap. simpl in Hmap.
    destruct (Outcome.map_from (Flights.transformFlight intl) (S start) l) as [fs|e] eqn:E;
      simpl in Hmap; [| discriminate Hmap].
    injection Hmap as <-.
    destruct i as [|i]; simpl in Hi.
    + injection Hi as <-. exists a. split; [reflexivity |].
      rewrite Nat.add_0_r. exact Hid.
    + destruct (IH (S start) fs E i flight Hi) as [b [Hb Hidb]].
      exists b. split; [exact Hb |].
      rewrite Hidb. f_equal. f_equal. f_equal. lia.
Qed.

(** Where an item of the price transform comes from: an itinerary of the
    provider with a first pricing option and a first leg, of which it is
    the reshaping, and whose id it has. *)
Lemma price_item_origin (data : Prices.FlightApiResponse) (item : Prices.PriceResult) :
  In item (Prices.transformPricingData data) ->
  exists itinerary pricingOption leg,
    In itinerary (default [] (Prices.itineraries data))
    /\ Js.first (Prices.pricing_options itinerary) = Some pricingOption
    /\ Js.first (Prices.legs itinerary) = Some leg
    /\ item = Prices.result_of (default ∅ (Prices.places data))
                (default ∅ (Prices.carriers data))
                (Js.or_string (Prices.data_currency data) "USD")
                itinerary pricingOption leg
    /\ Prices.id item = Prices.itinerary_id itinerary.
Proof.
  intros Hin.
  apply (Permutation_in _ (Permutation_sym (PriceTransform.transform_perm data))) in Hin.
  apply in_flat_map in Hin as [itinerary [Hit Hitem]].
  unfold Prices.loop_body in Hitem.
  destruct (Js.first (Prices.pricing_options itinerary)) as [po|] eqn:Epo;
    [| destruct Hitem].
  destruct (Js.first (Prices.legs itinerary)) as [leg|] eqn:Eleg; [| destruct Hitem].
  destruct Hitem as [<- | []].
  exists itinerary, po, leg. repeat split; assumption.
Qed.

Lemma loop_ids (tbl_places : gmap string Prices.FlightApiPlace)
    (tbl_carriers : gmap string Prices.FlightApiCarrier) (cur : string)
    (its : list Prices.FlightApiItinerary) :
  map Prices.id (flat_map (Prices.loop_body tbl_places tbl_carriers cur []) its)
  = map Prices.itinerary_id (List.filter Checks.priced_itinerary its).
Proof.
  induction its as [|it its IH]; simpl; [reflexivity |].
  rewrite map_app, IH. unfold Prices.loop_body, Checks.priced_itinerary.
  destruct (Js.first (Prices.pricing_options it)); [| reflexivity].
  destruct (Js.first (Prices.legs it)); reflexivity.
Qed.

(** The ids of the items are the ids of the itineraries that have a
    pricing option and a leg, each as often as it occurs there. *)
Lemma price_ids_provided (data : Prices.FlightApiResponse) :
  Permutation
    (map Prices.itinerary_id
       (List.filter Checks.priced_itinerary (default [] (Prices.itineraries data))))
    (map Prices.id (Prices.transformPricingData data)).
Proof.
  rewrite <- (Permutation_map Prices.id (PriceTransform.transform_perm data)).
  unfold Spec.items_in_input_order. rewrite loop_ids. reflexivity.
Qed.

(** The claim that an id is the carrier code followed by the index fails
    for the three transforms: the price transform hands on the provider's
    itinerary id, the flight search puts the flight designator and a
    hyphen in front of the index, the routes transform the airline code,
    the flight number and a hyphen. *)
Lemma ids_not_carrier_and_index :
  (map (fun r => (Prices.id r, Prices.airlineCode r))
       (Prices.transformPricingData Examples.fares)
   = [("second", "BA"); ("first", "BA"); ("third", "BA")]
   /\ forall i, "second" <> Spec.synthesized_id "BA" i)
  /\ (option_map Flights.id
        (match Flights.transformFlight Examples.intl_utc Examples.aa100 0 with
         | Returned f => Some f
         | Thrown _ => None
         end) = Some "AA100-0"
      /\ "AA100-0" <> Spec.synthesized_id "AA" 0)
  /\ (Routes.id (Routes.transformRoute Examples.ba117 0) = "BA117-0"
      /\ "BA117-0" <> Spec.synthesized_id "BA" 0).
Proof.
  split; [| split]; split; try (vm_compute; reflexivity); discriminate.
Qed.

(** C4, as the code has it. The id of a flight of a search is the flight's
    IATA designator, a hyphen and the index of the flight in the provider's
    array; the id of a route is the airline code, the flight number, a
    hyphen and the index of the route in the provider's array; a price
    item is the reshaping of one itinerary of the provider and its id is
    the id the provider gave that itinerary, so that the ids of the result
    are the ids of the itineraries that have a pricing option and a leg,
    each as often as it occurs among them. *)
Theorem ids_as_built :
  (forall intl (l : list Flights.AviationStackFlight),
     exists flights,
       Outcome.map_indexed (Flights.transformFlight intl) l = Returned flights
       /\ length flights = length l
       /\ forall (i : nat) (flight : Flights.Flight),
            flights !! i = Some flight ->
            exists apiFlight,
              l !! i = Some apiFlight
              /\ Flights.id flight
                 = Flights.flight_iata (Flights.api_flight apiFlight)
                     +:+ "-" +:+ Js.string_of_index i)
  /\ (forall (l : list Routes.AviationStackRoute) (i : nat) (route : Routes.FlightRoute),
        Routes.map_routes l !! i = Some route ->
        exists apiRoute,
          l !! i = Some apiRoute
          /\ Routes.id route
             = Routes.airline_iata (Routes.api_airline apiRoute)
                 +:+ Routes.flight_number apiRoute
                 +:+ "-" +:+ Js.string_of_index i)
  /\ (forall (data : Prices.FlightApiResponse) (item : Prices.PriceResult),
        In item (Prices.transformPricingData data) ->
        exists itinerary pricingOption leg,
          In itinerary (default [] (Prices.itineraries data))
          /\ Js.first (Prices.pricing_options itinerary) = Some pricingOption
          /\ Js.first (Prices.legs itinerary) = Some leg
          /\ item = Prices.result_of (default ∅ (Prices.places data))
                      (default ∅ (Prices.carriers data))
                      (Js.or_string (Prices.data_currency data) "USD")
                      itinerary pricingOption leg
          /\ Prices.id item = Prices.itinerary_id itinerary)
  /\ (forall data : Prices.FlightApiResponse,
        Permutation
          (map Prices.itinerary_id
             (List.filter Checks.priced_itinerary
                (default [] (Prices.itineraries data))))
          (map Prices.id (Prices.transformPricingData data))).
Proof.
  split; [| split; [| split]].
  - intros intl l.
    destruct (map_from_returns intl l 0) as [flights [Hmap Hlen]].
    exists flights. split; [exact Hmap |]. split; [exact Hlen |].
    intros i flight Hi.
    apply (map_from_flights intl l 0 flights Hmap i flight Hi).
  - intros l i route Hi. unfold Routes.map_routes in Hi.
    rewrite list_lookup_imap in Hi.
    destruct (l !! i) as [a|]; [| discriminate Hi].
    simpl in Hi. injection Hi as <-. exists a. split; reflexivity.
  - exact price_item_origin.
  - exact price_ids_provided.
Qed.

Lemma ids_as_built_witness :
  (exists apiRoute,
     [Examples.ba117] !! 0%nat = Some apiRoute
     /\ Routes.id (Routes.transformRoute Examples.ba117 0)
        = Routes.airline_iata (Routes.api_airline apiRoute)
            +:+ Routes.flight_number apiRoute +:+ "-" +:+ Js.string_of_index 0)
  /\ (exists itinerary pricingOption leg,
        In itinerary (default [] (Prices.itineraries Examples.fares_without_tables))
        /\ Js.first (Prices.pricing_options itinerary) = Some pricingOption
        /\ Js.first (Prices.legs itinerary) = Some leg
        /\ Prices.result_of ∅ ∅ "USD" (Examples.itinerary "only" 300%Q)
             {| Prices.option_price :=
                  Some {| Prices.amount := 300%Q; Prices.update_status := "current" |};
                Prices.agent_ids := [];
                Prices.items := Some [ {| Prices.url := "/book" |} ] |}
             (Examples.leg 1 2 7)
           = Prices.result_of ∅ ∅ "USD" itinerary pricingOption leg
        /\ "only" = Prices.itinerary_id itinerary).
Proof.
  split.
  - apply (proj1 (proj2 ids_as_built) [Examples.ba117] 0%nat
             (Routes.transformRoute Examples.ba117 0)).
    reflexivity.
  - apply (proj1 (proj2 (proj2 ids_as_built)) Examples.fares_without_tables
             (Prices.result_of ∅ ∅ "USD" (Examples.itinerary "only" 300%Q)
                {| Prices.option_price :=
                     Some {| Prices.amount := 300%Q; Prices.update_status := "current" |};
                   Prices.agent_ids := [];
                   Prices.items := Some [ {| Prices.url := "/book" |} ] |}
                (Examples.leg 1 2 7))).
    left. reflexivity.
Defined.

End Identifiers.

(* ===================================================================== *)
(** * Further properties of the handlers and of the page                  *)
(* ===================================================================== *)

(** ** Letters and white space *)

Module CaseFacts.

Lemma code_ascii_of_nat (n : nat) : (n < 256)%nat -> Js.code (ascii_of_nat n) = n.
Proof. intros H. unfold Js.code. apply nat_ascii_embedding. exact H. Qed.

Lemma ascii_of_code (c : ascii) : ascii_of_nat (Js.code c) = c.
Proof. unfold Js.code. apply ascii_nat_embedding. Qed.

Lemma in_range_spec (lo hi : nat) (c : ascii) :
  Js.in_range lo hi c = true <-> (lo <= Js.code c <= hi)%nat.
Proof.
  unfold Js.in_range. rewrite andb_true_iff, !Nat.leb_le. reflexivity.
Qed.

Lemma in_range_false (lo hi : nat) (c : ascii) :
  Js.in_range lo hi c = false <-> (Js.code c < lo \/ hi < Js.code c)%nat.
Proof.
  unfold Js.in_range. rewrite andb_false_iff, !Nat.leb_gt. reflexivity.
Qed.

Lemma is_space_spec (c : ascii) :
  Js.is_space c = true <-> (9 <= Js.code c <= 13 \/ Js.code c = 32)%nat.
Proof.
  unfold Js.is_space. rewrite orb_true_iff, in_range_spec, Nat.eqb_eq. reflexivity.
Qed.

(** Upper-casing a letter gives a letter: white space stays white space
    and nothing else becomes white space. *)
Lemma is_space_upper_char (c : ascii) : Js.is_space (Js.upper_char c) = Js.is_space c.
Proof.
  unfold Js.upper_char. destruct (Js.is_lower c) eqn:E; [| reflexivity].
  apply in_range_spec in E.
  assert (Hc : Js.code (ascii_of_nat (Js.code c - 32)) = (Js.code c - 32)%nat)
    by (apply code_ascii_of_nat; lia).
  destruct (Js.is_space c) eqn:Es.
  - apply is_space_spec in Es. lia.
  - destruct (Js.is_space (ascii_of_nat (Js.code c - 32))) eqn:Eu; [| reflexivity].
    apply is_space_spec in Eu. lia.
Qed.

(** Lower-casing forgets a previous upper-casing. *)
Lemma lower_upper_char (c : ascii) : Js.lower_char (Js.upper_char c) = Js.lower_char c.
Proof.
  unfold Js.upper_char. destruct (Js.is_lower c) eqn:E; [| reflexivity].
  apply in_range_spec in E.
  assert (Hc : Js.code (ascii_of_nat (Js.code c - 32)) = (Js.code c - 32)%nat)
    by (apply code_ascii_of_nat; lia).
  unfold Js.lower_char.
  assert (Hu : Js.is_upper (ascii_of_nat (Js.code c - 32)) = true)
    by (apply in_range_spec; lia).
  assert (Hl : Js.is_upper c = false) by (apply in_range_false; lia).
  rewrite Hu, Hl, Hc.
  replace (Js.code c - 32 + 32)%nat with (Js.code c) by lia.
  apply ascii_of_code.
Qed.

Lemma toLowerCase_toUpperCase (s : string) :
  Js.toLowerCase (Js.toUpperCase s) = Js.toLowerCase s.
Proof.
  unfold Js.toLowerCase, Js.toUpperCase.
  induction s as [|c r IH]; simpl; [reflexivity |].
  rewrite lower_upper_char, IH. reflexivity.
Qed.

Lemma trimStart_toUpperCase (s : string) :
  Js.trimStart (Js.toUpperCase s) = Js.toUpperCase (Js.trimStart s).
Proof.
  unfold Js.toUpperCase.
  induction s as [|c r IH]; simpl; [reflexivity |].
  rewrite is_space_upper_char. destruct (Js.is_space c); [exact IH | reflexivity].
Qed.

Lemma trimEnd_toUpperCase (s : string) :
  Js.trimEnd (Js.toUpperCase s) = Js.toUpperCase (Js.trimEnd s).
Proof.
  unfold Js.toUpperCase.
  induction s as [|c r IH]; simpl; [reflexivity |].
  rewrite IH, is_space_upper_char.
  destruct (Js.trimEnd r); simpl; [destruct (Js.is_space c) |]; reflexivity.
Qed.

(** Trimming and upper-casing can be done in either order. *)
Lemma trim_toUpperCase (s : string) :
  Js.trim (Js.toUpperCase s) = Js.toUpperCase (Js.trim s).
Proof.
  unfold Js.trim. rewrite trimStart_toUpperCase, trimEnd_toUpperCase. reflexivity.
Qed.

Lemma truthy_toUpperCase (s : string) :
  Js.truthy_string (Js.toUpperCase s) = Js.truthy_string s.
Proof. destruct s; reflexivity. Qed.

End CaseFacts.

(** ** [mapStatus], beyond the precedence of the delay *)

Module StatusMapping.

Import Flights.

Lemma delay_over_15_spec (d : option Js.number) :
  delay_over_15 d = true <-> Checks.over_15 d.
Proof.
  split.
  - destruct d as [v|]; [| discriminate].
    unfold delay_over_15, Js.gt. intros H.
    apply andb_true_iff in H as [_ H]. apply negb_true_iff in H.
    exists v. split; [reflexivity |].
    apply Qnot_le_lt. intros Hle. apply Qle_bool_iff in Hle. congruence.
  - intros [v [-> H]]. apply SearchHandler.delay_over_15_true. exact H.
Qed.

Lemma delay_over_15_false (d : option Js.number) :
  (forall v, d = Some v -> (v <= 15)%Q) -> delay_over_15 d = false.
Proof.
  intros H. destruct (delay_over_15 d) eqn:E; [| reflexivity].
  apply delay_over_15_spec in E as [v [-> Hv]].
  specialize (H v eq_refl). exfalso. revert H. apply Qlt_not_le. exact Hv.
Qed.

(** X1. [mapStatus] answers "delayed" in three cases only: a departure delay
    above 15, an arrival delay above 15, or a provider status that reads,
    in any letter case, "incident" or "diverted". *)
Theorem mapStatus_delayed_iff
    (apiStatus : option string) (depDelay arrDelay : option Js.number) :
  mapStatus apiStatus depDelay arrDelay = delayed
  <-> Checks.over_15 depDelay \/ Checks.over_15 arrDelay
      \/ Checks.reads_delayed apiStatus = true.
Proof.
  rewrite <- !delay_over_15_spec.
  unfold mapStatus, Checks.reads_delayed. cbv zeta.
  set (s := Js.or_string (option_map Js.toLowerCase apiStatus) "scheduled").
  destruct (delay_over_15 depDelay); [simpl; tauto |].
  destruct (delay_over_15 arrDelay); [simpl; tauto |].
  cbn [orb].
  destruct (String.eqb s "scheduled") eqn:E1.
  { apply String.eqb_eq in E1. rewrite E1. simpl.
    split; [discriminate | intros [H | [H | H]]; discriminate H]. }
  destruct (String.eqb s "active") eqn:E2.
  { apply String.eqb_eq in E2. rewrite E2. simpl.
    split; [discriminate | intros [H | [H | H]]; discriminate H]. }
  destruct (String.eqb s "landed") eqn:E3.
  { apply String.eqb_eq in E3. rewrite E3. simpl.
    split; [discriminate | intros [H | [H | H]]; discriminate H]. }
  destruct (String.eqb s "cancelled") eqn:E4.
  { apply String.eqb_eq in E4. rewrite E4. simpl.
    split; [discriminate | intros [H | [H | H]]; discriminate H]. }
  destruct (String.eqb s "incident"); [simpl; tauto |].
  destruct (String.eqb s "diverted"); [simpl; tauto |].
  simpl. split; [discriminate | intros [H | [H | H]]; discriminate H].
Qed.

(** X2. [mapStatus] never answers "boarding" or "departed", although the type
    of a flight's status has them. *)
Theorem mapStatus_never_boarding_departed
    (apiStatus : option string) (depDelay arrDelay : option Js.number) :
  mapStatus apiStatus depDelay arrDelay <> boarding
  /\ mapStatus apiStatus depDelay arrDelay <> departed.
Proof.
  unfold mapStatus. cbv zeta.
  set (s := Js.or_string (option_map Js.toLowerCase apiStatus) "scheduled").
  destruct (delay_over_15 depDelay || delay_over_15 arrDelay); [split; discriminate |].
  destruct (String.eqb s "scheduled"); [split; discriminate |].
  destruct (String.eqb s "active"); [split; discriminate |].
  destruct (String.eqb s "landed"); [split; discriminate |].
  destruct (String.eqb s "cancelled"); [split; discriminate |].
  destruct (String.eqb s "incident"); [split; discriminate |].
  destruct (String.eqb s "diverted"); split; discriminate.
Qed.

(** X3. For a provider status written in ASCII, the letter case does not
    matter: the status in capitals is mapped as the status itself. *)
Theorem mapStatus_case_insensitive
    (apiStatus : string) (depDelay arrDelay : option Js.number) :
  Checks.is_ascii apiStatus = true ->
  mapStatus (Some (Js.toUpperCase apiStatus)) depDelay arrDelay
  = mapStatus (Some apiStatus) depDelay arrDelay.
Proof.
  intros _. unfold mapStatus. simpl option_map.
  rewrite CaseFacts.toLowerCase_toUpperCase. reflexivity.
Qed.

Lemma mapStatus_case_insensitive_witness :
  mapStatus (Some "ACTIVE") None None = mapStatus (Some "Active") None None.
Proof.
  apply (mapStatus_case_insensitive "Active" None None). reflexivity.
Defined.

(** X4. The threshold is strict: delays of 15 minutes or less, on both legs,
    count as no delay at all. *)
Theorem mapStatus_small_delays_ignored
    (apiStatus : option string) (depDelay arrDelay : option Js.number) :
  (forall v, depDelay = Some v -> (v <= 15)%Q) ->
  (forall v, arrDelay = Some v -> (v <= 15)%Q) ->
  mapStatus apiStatus depDelay arrDelay = mapStatus apiStatus None None.
Proof.
  intros Hd Ha. unfold mapStatus.
  rewrite (delay_over_15_false _ Hd), (delay_over_15_false _ Ha). reflexivity.
Qed.

Lemma mapStatus_small_delays_ignored_witness :
  mapStatus (Some "cancelled") (Some 15%Q) (Some 0%Q) = cancelled.
Proof.
  rewrite mapStatus_small_delays_ignored; [reflexivity | |];
    intros v H; injection H as <-; discriminate.
Defined.

End StatusMapping.

(** ** The search handler after the request *)

Module SearchAnswers.

Import Flights.

(** A list reshaped element by element: as long, and each element the
    reshaping of the element at its position, with that position. *)
Lemma map_from_lookup {A B : Type} (f : A -> nat -> outcome B) (l : list A) :
  forall (start : nat) (ys : list B),
    Outcome.map_from f start l = Returned ys ->
    length ys = length l
    /\ forall (i : nat) (y : B),
         ys !! i = Some y ->
         exists x, l !! i = Some x /\ f x (start + i) = Returned y.
Proof.
  induction l as [|a l IH]; intros start ys Hmap; simpl in Hmap.
  - injection Hmap as <-. split; [reflexivity |]. intros i y Hi. discriminate Hi.
  - destruct (f a start) as [b|e] eqn:Ea; simpl in Hmap; [| discriminate Hmap].
    destruct (Outcome.map_from f (S start) l) as [bs|e] eqn:E;
      simpl in Hmap; [| discriminate Hmap].
    injection Hmap as <-.
    destruct (IH (S start) bs E) as [Hlen Hlook].
    split; [simpl; congruence |].
    intros [|i] y Hi; simpl in Hi.
    + injection Hi as <-. exists a. split; [reflexivity |].
      rewrite Nat.add_0_r. exact Ea.
    + destruct (Hlook i y Hi) as [x [Hx Hf]].
      exists x. split; [exact Hx |].
      rewrite <- Hf. f_equal. lia.
Qed.

(** X5. The search handler never throws: it always answers, with the status
    200, 400 or 500, and it sends the provider one request at most. *)
Theorem search_always_answers intl (key : option string) (params : SearchParams)
    (up : upstream URL FlightsPayload) :
  exists r,
    fst (IO.run (GET intl key params) up) = Returned r
    /\ (status r = 200 \/ status r = 400 \/ status r = 500)%Z
    /\ (length (snd (IO.run (GET intl key params) up)) <= 1)%nat.
Proof.
  unfold IO.run, GET. cbv zeta.
  destruct (Js.truthy_string (Js.or_string (option_map _ (searchParams_get params "q")) ""));
    cbn [negb]; [| eexists; simpl; split; [reflexivity | split; [tauto | lia]]].
  destruct (Js.truthy_string (Js.or_string key ""));
    cbn [negb]; [| eexists; simpl; split; [reflexivity | split; [tauto | lia]]].
  unfold IO.try_catch, IO.bind, IO.fetch. cbn [length app].
  destruct (up 0%nat _) as [response|];
    [| eexists; simpl; split; [reflexivity | split; [tauto | lia]]].
  unfold respond, IO.bind, IO.json.
  destruct (resp_json response) as [data|]; cbn [IO.ret IO.throw];
    [| eexists; simpl; split; [reflexivity | split; [tauto | lia]]].
  destruct (payload_error data);
    [eexists; simpl; split; [reflexivity | split; [tauto | lia]] |].
  unfold IO.lift, Outcome.map_indexed.
  destruct (Identifiers.map_from_returns intl (default [] (payload_data data)) 0)
    as [flights [-> _]].
  eexists; simpl; split; [reflexivity | split; [tauto | lia]].
Qed.

(** The answer of the handler to an answer of the provider without an
    error. *)
Lemma search_success_run intl (key : option string) (params : SearchParams)
    (up : upstream URL FlightsPayload)
    (response : HttpResponse FlightsPayload) (data : FlightsPayload) :
  Spec.normalized params "q" <> EmptyString ->
  Spec.configured key = true ->
  up 0%nat (Spec.search_request (Js.or_string key "") (Spec.normalized params "q")
              (Js.or_string (searchParams_get params "date") "")) = Some response ->
  resp_json response = Some data ->
  payload_error data = None ->
  exists flights,
    fst (IO.run (GET intl key params) up)
    = Returned {| status := 200; body := FlightsBody flights |}
    /\ length flights = length (default [] (payload_data data))
    /\ forall (i : nat) (flight : Flight),
         flights !! i = Some flight ->
         exists apiFlight,
           default [] (payload_data data) !! i = Some apiFlight
           /\ transformFlight intl apiFlight i = Returned flight.
Proof.
  intros Hq Hk Hup Hjson Herr.
  apply JsFacts.truthy_string_true in Hq.
  unfold Spec.configured in Hk. unfold Spec.normalized in *.
  unfold IO.run, GET. cbv zeta. rewrite Hq, Hk. cbn [negb].
  rewrite SearchRequests.search_url_classified.
  unfold IO.try_catch, IO.bind at 1, IO.fetch. cbn [length app].
  rewrite Hup.
  unfold respond, IO.bind, IO.json. rewrite Hjson. cbn [IO.ret]. rewrite Herr.
  unfold IO.lift, Outcome.map_indexed.
  destruct (Identifiers.map_from_returns intl (default [] (payload_data data)) 0)
    as [flights [Hmap _]].
  rewrite Hmap. exists flights. split; [reflexivity |].
  apply (map_from_lookup (transformFlight intl) _ 0%nat flights Hmap).
Qed.

(** X6. When the provider answers without an error, the handler answers 200
    with one flight for each flight of the provider, in the provider's
    order, each the reshaping of the provider's flight at its position; a
    body without [data] gives no flight. *)
Theorem search_success intl (key : option string) (params : SearchParams)
    (up : upstream URL FlightsPayload)
    (response : HttpResponse FlightsPayload) (data : FlightsPayload) :
  Spec.normalized params "q" <> EmptyString ->
  Spec.configured key = true ->
  up 0%nat (Spec.search_request (Js.or_string key "") (Spec.normalized params "q")
              (Js.or_string (searchParams_get params "date") "")) = Some response ->
  resp_json response = Some data ->
  payload_error data = None ->
  exists flights,
    fst (IO.run (GET intl key params) up)
    = Returned {| status := 200; body := FlightsBody flights |}
    /\ length flights = length (default [] (payload_data data))
    /\ forall (i : nat) (flight : Flight),
         flights !! i = Some flight ->
         exists apiFlight,
           default [] (payload_data data) !! i = Some apiFlight
           /\ transformFlight intl apiFlight i = Returned flight.
Proof. apply search_success_run. Qed.

Lemma search_success_witness :
  exists flights,
    fst (IO.run (GET Examples.intl_utc (Some "secret") [("q", "aa100")])
           (Samples.always (Samples.flights_reply Samples.flights_found)))
    = Returned {| status := 200; body := FlightsBody flights |}
    /\ length flights = 1%nat.
Proof.
  destruct (search_success Examples.intl_utc (Some "secret") [("q", "aa100")]
              (Samples.always (Samples.flights_reply Samples.flights_found))
              (Samples.flights_reply Samples.flights_found) Samples.flights_found
              ltac:(vm_compute; discriminate) eq_refl eq_refl eq_refl eq_refl)
    as [flights [H [Hlen _]]].
  exists flights. split; [exact H | exact Hlen].
Defined.

(** X7. When the provider answers with an error payload, the handler answers
    400 with the provider's message, or with "Failed to fetch flight data"
    when the payload has none; when the provider cannot be reached or its
    body is not JSON, the handler answers 500 with its own message. *)
Theorem search_failures intl (key : option string) (params : SearchParams)
    (up : upstream URL FlightsPayload) :
  Spec.normalized params "q" <> EmptyString ->
  Spec.configured key = true ->
  let request :=
    Spec.search_request (Js.or_string key "") (Spec.normalized params "q")
      (Js.or_string (searchParams_get params "date") "") in
  (forall response data e,
     up 0%nat request = Some response ->
     resp_json response = Some data ->
     payload_error data = Some e ->
     fst (IO.run (GET intl key params) up)
     = Returned
         {| status := 400;
            body := ErrorBody (Js.or_string (error_message e)
                                 "Failed to fetch flight data") |})
  /\ (up 0%nat request = None
      \/ (exists response, up 0%nat request = Some response /\ resp_json response = None) ->
      fst (IO.run (GET intl key params) up)
      = Returned
          {| status := 500;
             body := ErrorBody "Failed to fetch flight data. Please try again." |}).
Proof.
  intros Hq Hk request. subst request.
  apply JsFacts.truthy_string_true in Hq.
  unfold Spec.configured in Hk. unfold Spec.normalized in *.
  unfold IO.run, GET. cbv zeta. rewrite Hq, Hk. cbn [negb].
  rewrite SearchRequests.search_url_classified.
  split.
  - intros response data e Hup Hjson Herr.
    unfold IO.try_catch, IO.bind at 1, IO.fetch. cbn [length app]. rewrite Hup.
    unfold respond, IO.bind, IO.json. rewrite Hjson. cbn [IO.ret]. rewrite Herr.
    reflexivity.
  - intros [Hup | [response [Hup Hjson]]];
      unfold IO.try_catch, IO.bind at 1, IO.fetch; cbn [length app]; rewrite Hup;
      [reflexivity |].
    unfold respond, IO.bind, IO.json. rewrite Hjson. reflexivity.
Qed.

Lemma search_failures_witness :
  fst (IO.run (GET Examples.intl_utc (Some "secret") [("q", "aa100")])
         (Samples.always (Samples.flights_reply Samples.flights_refused)))
  = Returned {| status := 400; body := ErrorBody "Failed to fetch flight data" |}
  /\ fst (IO.run (GET Examples.intl_utc (Some "secret") [("q", "aa100")])
            Examples.unreachable)
     = Returned {| status := 500;
                   body := ErrorBody "Failed to fetch flight data. Please try again." |}.
Proof.
  split.
  - apply (proj1 (search_failures Examples.intl_utc (Some "secret") [("q", "aa100")]
                    (Samples.always (Samples.flights_reply Samples.flights_refused))
                    ltac:(vm_compute; discriminate) eq_refl)
             (Samples.flights_reply Samples.flights_refused) Samples.flights_refused
             {| error_message := None |}); reflexivity.
  - apply (proj2 (search_failures Examples.intl_utc (Some "secret") [("q", "aa100")]
                    Examples.unreachable
                    ltac:(vm_compute; discriminate) eq_refl)).
    left. reflexivity.
Defined.

End SearchAnswers.

(** ** The items of the price transform *)

Module PriceItems.

Import Prices.

(** X8. For a whole number of minutes between -2^53 and 2^53: when it is
    not negative, [formatDuration] writes the hours and the minutes below
    60 that add up to it; when it is negative and not a multiple of 60 the
    two parts are both negative and add up to an hour less than the
    input. *)
Theorem formatDuration_parts (minutes : Z) :
  (- 2 ^ 53 < minutes < 2 ^ 53)%Z ->
  exists h m : Z,
    formatDuration minutes
    = Js.string_of_int h +:+ "h " +:+ Js.string_of_int m +:+ "m"
    /\ (- 2 ^ 53 < h < 2 ^ 53)%Z
    /\ ((0 <= minutes)%Z -> (minutes = 60 * h + m /\ 0 <= h /\ 0 <= m < 60)%Z)
    /\ ((minutes < 0)%Z -> (Z.rem minutes 60 <> 0)%Z ->
        (minutes - 60 = 60 * h + m /\ h < 0 /\ -60 < m < 0)%Z).
Proof.
  intros Hrange.
  exists (minutes / 60)%Z, (Z.rem minutes 60). split; [reflexivity |].
  change (2 ^ 53)%Z with 9007199254740992%Z in *.
  split; [| split]; intros; Z.to_euclidean_division_equations; lia.
Qed.

Lemma formatDuration_parts_witness :
  exists h m : Z,
    formatDuration 135 = Js.string_of_int h +:+ "h " +:+ Js.string_of_int m +:+ "m"
    /\ (135 = 60 * h + m)%Z /\ (0 <= m < 60)%Z.
Proof.
  destruct (formatDuration_parts 135 ltac:(split; reflexivity))
    as [h [m [Hs [_ [Hpos _]]]]].
  exists h, m. split; [exact Hs |].
  destruct (Hpos ltac:(discriminate)) as [He [_ Hm]].
  split; [exact He | exact Hm].
Defined.

Example formatDuration_examples :
  formatDuration 135 = "2h 15m" /\ formatDuration 0 = "0h 0m"
  /\ formatDuration (-30) = "-1h -30m".
Proof. repeat split. Qed.

(** Where an item of the result comes from. *)
Lemma item_origin (data : FlightApiResponse) (item : PriceResult) :
  In item (transformPricingData data) ->
  exists itinerary pricingOption leg,
    In itinerary (default [] (itineraries data))
    /\ Js.first (pricing_options itinerary) = Some pricingOption
    /\ Js.first (legs itinerary) = Some leg
    /\ item = result_of (default ∅ (places data)) (default ∅ (carriers data))
                (Js.or_string (data_currency data) "USD") itinerary pricingOption leg.
Proof.
  intros Hin.
  apply (Permutation_in _ (Permutation_sym (PriceTransform.transform_perm data))) in Hin.
  apply in_flat_map in Hin as [itinerary [Hit Hitem]].
  unfold loop_body in Hitem.
  destruct (Js.first (pricing_options itinerary)) as [po|] eqn:Epo; [| destruct Hitem].
  destruct (Js.first (legs itinerary)) as [leg|] eqn:Eleg; [| destruct Hitem].
  destruct Hitem as [<- | []].
  exists itinerary, po, leg. repeat split; assumption.
Qed.

Lemma bookingUrl_of_absolute (pricingOption : FlightApiPricingOption) :
  bookingUrl_of pricingOption = EmptyString
  \/ Js.startsWith "http" (bookingUrl_of pricingOption) = true.
Proof.
  unfold bookingUrl_of.
  destruct (Js.first (items pricingOption)) as [bookingItem|]; [| left; reflexivity].
  destruct (Js.truthy_string (url bookingItem)); [| left; reflexivity].
  destruct (Js.startsWith "http" (url bookingItem)) eqn:E; right; [exact E | reflexivity].
Qed.

(** X9. The booking link of every item of the result is empty or absolute: it
    begins with "http". *)
Theorem booking_urls_absolute (data : FlightApiResponse) (item : PriceResult) :
  In item (transformPricingData data) ->
  bookingUrl item = EmptyString \/ Js.startsWith "http" (bookingUrl item) = true.
Proof.
  intros Hin. apply item_origin in Hin as [it [po [leg [_ [_ [_ ->]]]]]].
  apply bookingUrl_of_absolute.
Qed.

Lemma booking_urls_absolute_witness :
  map bookingUrl (transformPricingData Examples.fares_without_tables)
  = ["https://www.skyscanner.com/book"]
  /\ (bookingUrl (result_of ∅ ∅ "USD" (Examples.itinerary "only" 300%Q)
                    {| option_price :=
                         Some {| amount := 300%Q; update_status := "current" |};
                       agent_ids := [];
                       items := Some [ {| url := "/book" |} ] |}
                    (Examples.leg 1 2 7)) = EmptyString
      \/ Js.startsWith "http"
           (bookingUrl (result_of ∅ ∅ "USD" (Examples.itinerary "only" 300%Q)
                          {| option_price :=
                               Some {| amount := 300%Q; update_status := "current" |};
                             agent_ids := [];
                             items := Some [ {| url := "/book" |} ] |}
                          (Examples.leg 1 2 7))) = true).
Proof.
  split; [reflexivity |].
  apply (booking_urls_absolute Examples.fares_without_tables).
  left. reflexivity.
Defined.

(** All the items of a result are in one currency: the one of the
    provider's answer, or USD when the answer names none. *)
Theorem items_share_currency (data : FlightApiResponse) (item : PriceResult) :
  In item (transformPricingData data) ->
  currency item = Js.or_string (data_currency data) "USD".
Proof.
  intros Hin. apply item_origin in Hin as [it [po [leg [_ [_ [_ ->]]]]]].
  reflexivity.
Qed.

Lemma items_share_currency_witness :
  Forall (fun item => currency item = "USD")
    (transformPricingData Examples.fares_without_tables).
Proof.
  apply List.Forall_forall. intros item Hin.
  apply (items_share_currency Examples.fares_without_tables item Hin).
Defined.

Lemma loop_length (tbl_places : gmap string FlightApiPlace)
    (tbl_carriers : gmap string FlightApiCarrier) (cur : string)
    (its : list FlightApiItinerary) :
  length (flat_map (loop_body tbl_places tbl_carriers cur []) its)
  = length (List.filter Checks.priced_itinerary its).
Proof.
  induction its as [|it its IH]; simpl; [reflexivity |].
  rewrite length_app, IH. unfold loop_body, Checks.priced_itinerary.
  destruct (Js.first (pricing_options it)); [| reflexivity].
  destruct (Js.first (legs it)); reflexivity.
Qed.

(** X10. The result has one item for each itinerary that has a pricing option
    and a leg, and none for the others: it is never longer than the
    provider's list, and as long when every itinerary has both. *)
Theorem transform_length (data : FlightApiResponse) :
  length (transformPricingData data)
  = length (List.filter Checks.priced_itinerary (default [] (itineraries data)))
  /\ (length (transformPricingData data) <= length (default [] (itineraries data)))%nat.
Proof.
  assert (E : length (transformPricingData data)
              = length (List.filter Checks.priced_itinerary (default [] (itineraries data)))).
  { rewrite <- (Permutation_length (PriceTransform.transform_perm data)).
    apply loop_length. }
  split; [exact E |]. rewrite E. apply List.filter_length_le.
Qed.

End PriceItems.

(** ** The pricing handler: checks, request and answers *)

Module PricingAnswers.

Import Prices.

(** The date pattern accepts the strings of the form dddd-dd-dd, and no
    other. *)
Lemma datePattern_shape (s : string) :
  Regex.test datePattern s = Checks.is_iso_date s.
Proof.
  unfold datePattern, Checks.is_iso_date. cbv zeta. simpl Regex.Repeat.
  do 10 (rewrite RegexFacts.test_Seq_Class;
         destruct s as [|? s]; [rewrite ?andb_false_r; reflexivity |]).
  rewrite RegexFacts.test_Eps.
  destruct s; rewrite ?andb_true_r, ?andb_false_r, ?andb_assoc; reflexivity.
Qed.

Lemma iso_date_truthy (s : string) :
  Checks.is_iso_date s = true -> Js.truthy_string s = true.
Proof. destruct s; [discriminate | reflexivity]. Qed.

(** Unfold the handler and its checks down to the tests on the normalized
    parameters, so that the hypotheses on them rewrite. *)
Ltac open_handler :=
  unfold Checks.pricing_ok, Checks.pricing_present, Checks.pricing_url,
    Checks.date_of, Spec.configured, Spec.normalized in *;
  unfold IO.run, GET, absent; cbv zeta;
  rewrite ?RegexFacts.airportPattern_shape, ?datePattern_shape.

(** X11. A malformed airport code is refused with 400, whatever the date and
    the key are, and nothing is sent to the provider; the letter case of
    the codes does not matter, they are upper-cased first. *)
Theorem malformed_airport_rejected (key : option string) (params : SearchParams)
    (up : upstream string FlightApiResponse) :
  Checks.pricing_present params = true ->
  Spec.is_airport_code (Spec.normalized params "from") = false
  \/ Spec.is_airport_code (Spec.normalized params "to") = false ->
  IO.run (GET key params) up
  = (Returned {| status := 400;
                 body := ErrorBody
                   "Invalid airport code. Use 3-letter IATA codes (e.g., JFK, LAX)" |},
     []).
Proof.
  intros Hp Hbad. open_handler.
  apply andb_true_iff in Hp as [Hp Td]. apply andb_true_iff in Hp as [Tf Tt].
  rewrite Tf, Tt, Td. cbn [negb orb].
  destruct Hbad as [H | H]; rewrite H; cbn [negb orb]; [reflexivity |].
  rewrite orb_true_r. reflexivity.
Qed.

Lemma malformed_airport_rejected_witness :
  IO.run (GET (Some "secret") [("from", "XX1"); ("to", "lhr"); ("date", "2024-01-01")])
    Examples.unreachable
  = (Returned {| status := 400;
                 body := ErrorBody
                   "Invalid airport code. Use 3-letter IATA codes (e.g., JFK, LAX)" |},
     []).
Proof.
  apply malformed_airport_rejected; [reflexivity | left; reflexivity].
Defined.

(** X12. With two airport codes, a date that is there but is not of the form
    dddd-dd-dd is refused with 400, whatever the key is, and nothing is
    sent to the provider. *)
Theorem malformed_date_rejected (key : option string) (params : SearchParams)
    (up : upstream string FlightApiResponse) :
  Spec.is_airport_code (Spec.normalized params "from") = true ->
  Spec.is_airport_code (Spec.normalized params "to") = true ->
  Checks.date_of params <> EmptyString ->
  Checks.is_iso_date (Checks.date_of params) = false ->
  IO.run (GET key params) up
  = (Returned {| status := 400;
                 body := ErrorBody "Invalid date format. Use YYYY-MM-DD" |},
     []).
Proof.
  intros Hf Ht Td Hd. apply JsFacts.truthy_string_true in Td.
  pose proof (MissingKey.airport_code_truthy _ Hf) as Tf.
  pose proof (MissingKey.airport_code_truthy _ Ht) as Tt.
  open_handler. rewrite Tf, Tt, Td, Hf, Ht, Hd. reflexivity.
Qed.

Lemma malformed_date_rejected_witness :
  IO.run (GET None [("from", "JFK"); ("to", "LHR"); ("date", "2024-1-5")])
    Examples.unreachable
  = (Returned {| status := 400;
                 body := ErrorBody "Invalid date format. Use YYYY-MM-DD" |},
     []).
Proof.
  apply malformed_date_rejected; try reflexivity. vm_compute. discriminate.
Defined.

(** What the handler does once its checks and the key are passed. *)
Lemma run_checked (key : option string) (params : SearchParams)
    (up : upstream string FlightApiResponse) :
  Checks.pricing_ok params = true ->
  Spec.configured key = true ->
  exists k,
    IO.run (GET key params) up
    = IO.try_catch
        (IO.bind (IO.fetch (Checks.pricing_url (Js.or_string key "") params)) k)
        (fun _ =>
           IO.ret (json_response_with
                     (ErrorBody "Failed to fetch pricing data. Please try again.") 500))
        up []
    /\ k = (fun response =>
         if negb (resp_ok response) then
           IO.bind (IO.text response) (fun _ =>
             if (resp_status response =? 401)%Z then
               IO.ret (json_response_with
                         (ErrorBody "Invalid API key. Please check your FLIGHTAPI_KEY.") 401)
             else if (resp_status response =? 429)%Z then
               IO.ret (json_response_with
                         (ErrorBody "API rate limit exceeded. Please try again later.") 429)
             else
               IO.ret (json_response_with
                         (ErrorBody "Failed to fetch pricing data. Please try again.")
                         (resp_status response)))
         else
           IO.bind (IO.json response) (fun data =>
             if negb (absent (data_error data)) || negb (absent (data_message data)) then
               IO.ret (json_response_with
                         (ErrorBody
                            (Js.or_string (data_message data)
                               (Js.or_string (data_error data) "Unknown API error")))
                         400)
             else
               IO.ret (json_response
                         (PricesFound (transformPricingData data)
                            {| meta_from := Spec.normalized params "from";
                               meta_to := Spec.normalized params "to";
                               meta_date := Checks.date_of params;
                               meta_adults :=
                                 Js.parseInt
                                   (Js.or_string (searchParams_get params "adults") "1");
                               meta_currency :=
                                 Js.or_string (searchParams_get params "currency") "USD";
                               resultsCount := length (transformPricingData data) |})))).
Proof.
  intros Hok Hkey. eexists. split; [| reflexivity].
  unfold Checks.pricing_ok in Hok.
  apply andb_true_iff in Hok as [Hok Hd]. apply andb_true_iff in Hok as [Hf Ht].
  pose proof (MissingKey.airport_code_truthy _ Hf) as Tf.
  pose proof (MissingKey.airport_code_truthy _ Ht) as Tt.
  pose proof (iso_date_truthy _ Hd) as Td.
  open_handler. rewrite Tf, Tt, Td, Hf, Ht, Hd, Hkey. reflexivity.
Qed.

Lemma try_catch_answers {R D A : Type} (m : io R D A) (x : A)
    (up : upstream R D) (log : list R) :
  exists a,
    IO.try_catch m (fun _ => IO.ret x) up log = (Returned a, snd (m up log)).
Proof.
  unfold IO.try_catch. destruct (m up log) as [[a | e] log']; eexists; reflexivity.
Qed.

(** X13. The pricing handler never throws, and what it sends the provider
    is decided by its checks and the key alone: one request, the one-way
    search for the parameters, when the three checks pass and there is a
    key, and nothing otherwise. *)
Theorem pricing_request_discipline (key : option string) (params : SearchParams)
    (up : upstream string FlightApiResponse) :
  exists r,
    IO.run (GET key params) up
    = (Returned r,
       if Checks.pricing_ok params && Spec.configured key
       then [Checks.pricing_url (Js.or_string key "") params]
       else []).
Proof.
  destruct (Checks.pricing_ok params && Spec.configured key) eqn:E.
  - apply andb_true_iff in E as [Hok Hkey].
    destruct (run_checked key params up Hok Hkey) as [k [Hrun Hk]].
    rewrite Hrun.
    destruct (try_catch_answers
                (IO.bind (IO.fetch (Checks.pricing_url (Js.or_string key "") params)) k)
                (json_response_with
                   (ErrorBody "Failed to fetch pricing data. Please try again.") 500)
                up []) as [a Ha].
    rewrite Ha. exists a. f_equal.
    rewrite IOFacts.log_fetch_bind; [reflexivity |].
    intros response. subst k. cbv beta.
    destruct (negb (resp_ok response)).
    + apply IOFacts.silent_bind; auto with io_log. intros _.
      destruct (resp_status response =? 401)%Z; auto with io_log.
      destruct (resp_status response =? 429)%Z; auto with io_log.
    + apply IOFacts.silent_bind; auto with io_log. intros data.
      destruct (negb (absent (data_error data)) || negb (absent (data_message data)));
        auto with io_log.
  - open_handler.
    destruct (Js.truthy_string
                (Js.or_string (option_map _ (searchParams_get params "from")) "")) eqn:Tf;
      [| eexists; reflexivity].
    destruct (Js.truthy_string
                (Js.or_string (option_map _ (searchParams_get params "to")) "")) eqn:Tt;
      [| eexists; reflexivity].
    destruct (Js.truthy_string (Js.or_string (searchParams_get params "date") "")) eqn:Td;
      [| eexists; reflexivity].
    cbn [negb orb].
    destruct (Spec.is_airport_code
                (Js.or_string (option_map _ (searchParams_get params "from")) "")) eqn:Hf;
      [| eexists; reflexivity].
    destruct (Spec.is_airport_code
                (Js.or_string (option_map _ (searchParams_get params "to")) "")) eqn:Ht;
      [| eexists; reflexivity].
    cbn [negb orb].
    destruct (Checks.is_iso_date (Js.or_string (searchParams_get params "date") "")) eqn:Hd;
      [| eexists; reflexivity].
    cbn [negb andb] in *.
    rewrite E. eexists; reflexivity.
Qed.

(** X14. An error status of the provider (400 to 599) is handed on as the
    status of the answer, with a message for 401, one for 429 and a
    general one for the rest. *)
Theorem provider_status_handed_on (key : option string) (params : SearchParams)
    (up : upstream string FlightApiResponse)
    (response : HttpResponse FlightApiResponse) (errorText : string) :
  Checks.pricing_ok params = true ->
  Spec.configured key = true ->
  up 0%nat (Checks.pricing_url (Js.or_string key "") params) = Some response ->
  (400 <= resp_status response <= 599)%Z ->
  resp_text response = Some errorText ->
  fst (IO.run (GET key params) up)
  = Returned
      {| status := resp_status response;
         body :=
           ErrorBody
             (if (resp_status response =? 401)%Z
              then "Invalid API key. Please check your FLIGHTAPI_KEY."
              else if (resp_status response =? 429)%Z
                   then "API rate limit exceeded. Please try again later."
                   else "Failed to fetch pricing data. Please try again.") |}.
Proof.
  intros Hok Hkey Hup Hst Htext.
  assert (Hnok : resp_ok response = false).
  { unfold resp_ok. apply andb_false_iff. right. apply Z.leb_gt. lia. }
  destruct (run_checked key params up Hok Hkey) as [k [-> ->]].
  unfold IO.try_catch, IO.bind at 1, IO.fetch. cbn [length app]. rewrite Hup.
  rewrite Hnok. cbn [negb]. unfold IO.bind, IO.text. rewrite Htext. cbn [IO.ret].
  destruct (resp_status response =? 401)%Z eqn:E1.
  { apply Z.eqb_eq in E1. rewrite E1. reflexivity. }
  destruct (resp_status response =? 429)%Z eqn:E2.
  { apply Z.eqb_eq in E2. rewrite E2. reflexivity. }
  reflexivity.
Qed.

Lemma provider_status_handed_on_witness :
  fst (IO.run (GET (Some "secret") Samples.well_formed)
         (Samples.always (Samples.reply 429 None)))
  = Returned {| status := 429;
                body := ErrorBody "API rate limit exceeded. Please try again later." |}
  /\ fst (IO.run (GET (Some "secret") Samples.well_formed)
            (Samples.always (Samples.reply 503 None)))
     = Returned {| status := 503;
                   body := ErrorBody "Failed to fetch pricing data. Please try again." |}.
Proof.
  split.
  - apply (provider_status_handed_on (Some "secret") Samples.well_formed
             (Samples.always (Samples.reply 429 None)) (Samples.reply 429 None) "body");
      try reflexivity; simpl; lia.
  - apply (provider_status_handed_on (Some "secret") Samples.well_formed
             (Samples.always (Samples.reply 503 None)) (Samples.reply 503 None) "body");
      try reflexivity; simpl; lia.
Defined.

(** X15. A 2xx answer of the provider whose body carries an [error] or a
    [message] is answered 400, with the message when there is one and the
    error otherwise: the text "Unknown API error" of the handler is never
    what decides the answer. *)
Theorem provider_body_error (key : option string) (params : SearchParams)
    (up : upstream string FlightApiResponse)
    (response : HttpResponse FlightApiResponse) (data : FlightApiResponse) :
  Checks.pricing_ok params = true ->
  Spec.configured key = true ->
  up 0%nat (Checks.pricing_url (Js.or_string key "") params) = Some response ->
  resp_ok response = true ->
  resp_json response = Some data ->
  Js.or_string (data_error data) "" <> EmptyString
  \/ Js.or_string (data_message data) "" <> EmptyString ->
  fst (IO.run (GET key params) up)
  = Returned
      {| status := 400;
         body :=
           ErrorBody
             (if Js.truthy_string (Js.or_string (data_message data) "")
              then Js.or_string (data_message data) ""
              else Js.or_string (data_error data) "") |}.
Proof.
  intros Hok Hkey Hup Hisok Hjson Herr.
  destruct (run_checked key params up Hok Hkey) as [k [-> ->]].
  unfold IO.try_catch, IO.bind at 1, IO.fetch. cbn [length app]. rewrite Hup.
  rewrite Hisok. cbn [negb]. unfold IO.bind, IO.json. rewrite Hjson. cbn [IO.ret].
  unfold absent. rewrite !negb_involutive.
  assert (E : Js.truthy_string (Js.or_string (data_error data) "")
              || Js.truthy_string (Js.or_string (data_message data) "") = true).
  { apply orb_true_iff.
    destruct Herr as [H | H]; apply JsFacts.truthy_string_true in H; auto. }
  rewrite E. cbn [IO.ret fst json_response_with]. do 3 f_equal.
  destruct (data_message data) as [[|c m]|]; simpl; try reflexivity;
    destruct (data_error data) as [[|c' e]|]; simpl in *; try reflexivity; discriminate E.
Qed.

Lemma provider_body_error_witness :
  fst (IO.run (GET (Some "secret") Samples.well_formed)
         (Samples.always (Samples.reply 200 (Some Samples.refused))))
  = Returned {| status := 400; body := ErrorBody "No flights for this route" |}.
Proof.
  apply (provider_body_error (Some "secret") Samples.well_formed
           (Samples.always (Samples.reply 200 (Some Samples.refused)))
           (Samples.reply 200 (Some Samples.refused)) Samples.refused);
    try reflexivity.
  left. discriminate.
Defined.

(** X17. A 2xx answer of the provider whose body carries neither is answered
    200 with the transformed items and, beside them, the upper-cased
    airport codes, the date, the number of adults read as an integer, the
    currency asked for and the number of items. *)
Theorem pricing_success (key : option string) (params : SearchParams)
    (up : upstream string FlightApiResponse)
    (response : HttpResponse FlightApiResponse) (data : FlightApiResponse) :
  Checks.pricing_ok params = true ->
  Spec.configured key = true ->
  up 0%nat (Checks.pricing_url (Js.or_string key "") params) = Some response ->
  resp_ok response = true ->
  resp_json response = Some data ->
  Js.or_string (data_error data) "" = EmptyString ->
  Js.or_string (data_message data) "" = EmptyString ->
  fst (IO.run (GET key params) up)
  = Returned
      {| status := 200;
         body :=
           PricesFound (transformPricingData data)
             {| meta_from := Spec.normalized params "from";
                meta_to := Spec.normalized params "to";
                meta_date := Checks.date_of params;
                meta_adults :=
                  Js.parseInt (Js.or_string (searchParams_get params "adults") "1");
                meta_currency := Js.or_string (searchParams_get params "currency") "USD";
                resultsCount := length (transformPricingData data) |} |}.
Proof.
  intros Hok Hkey Hup Hisok Hjson He Hm.
  destruct (run_checked key params up Hok Hkey) as [k [-> ->]].
  unfold IO.try_catch, IO.bind at 1, IO.fetch. cbn [length app]. rewrite Hup.
  rewrite Hisok. cbn [negb]. unfold IO.bind, IO.json. rewrite Hjson. cbn [IO.ret].
  unfold absent. rewrite He, Hm. reflexivity.
Qed.

Lemma pricing_success_witness :
  exists meta,
    fst (IO.run (GET (Some "secret") Samples.well_formed)
           (Samples.always (Samples.reply 200 (Some Examples.fares))))
    = Returned {| status := 200;
                  body := PricesFound (transformPricingData Examples.fares) meta |}
    /\ meta_from meta = "JFK" /\ meta_adults meta = Some 1%Z /\ resultsCount meta = 3%nat.
Proof.
  eexists. split.
  - apply (pricing_success (Some "secret") Samples.well_formed
             (Samples.always (Samples.reply 200 (Some Examples.fares)))
             (Samples.reply 200 (Some Examples.fares)) Examples.fares);
      reflexivity.
  - repeat split; vm_compute; reflexivity.
Defined.

(** X16. When the provider cannot be reached, or its body cannot be read (a body
    that is not JSON behind a 2xx status, a body that cannot be read as
    text behind another), the handler answers 500 with its general
    message. *)
Theorem pricing_thrown (key : option string) (params : SearchParams)
    (up : upstream string FlightApiResponse) :
  Checks.pricing_ok params = true ->
  Spec.configured key = true ->
  up 0%nat (Checks.pricing_url (Js.or_string key "") params) = None
  \/ (exists response,
        up 0%nat (Checks.pricing_url (Js.or_string key "") params) = Some response
        /\ ((resp_ok response = true /\ resp_json response = None)
            \/ (resp_ok response = false /\ resp_text response = None))) ->
  fst (IO.run (GET key params) up)
  = Returned {| status := 500;
                body := ErrorBody "Failed to fetch pricing data. Please try again." |}.
Proof.
  intros Hok Hkey Hup.
  destruct (run_checked key params up Hok Hkey) as [k [-> ->]].
  unfold IO.try_catch, IO.bind at 1, IO.fetch. cbn [length app].
  destruct Hup as [Hup | [response [Hup [[Hisok Hbody] | [Hnok Hbody]]]]]; rewrite Hup.
  - reflexivity.
  - rewrite Hisok. cbn [negb]. unfold IO.bind, IO.json. rewrite Hbody. reflexivity.
  - rewrite Hnok. cbn [negb]. unfold IO.bind, IO.text. rewrite Hbody. reflexivity.
Qed.

Lemma pricing_thrown_witness :
  fst (IO.run (GET (Some "secret") Samples.well_formed) Examples.unreachable)
  = Returned {| status := 500;
                body := ErrorBody "Failed to fetch pricing data. Please try again." |}.
Proof.
  apply pricing_thrown; [reflexivity | reflexivity | left; reflexivity].
Defined.

End PricingAnswers.

(** ** The routes handler: checks, requests and answers *)

Module RoutesAnswers.

Import Routes.

(** The answer to a request that fails the check. *)
Lemma routes_unchecked (key : option string) (params : SearchParams)
    (up : upstream URL RoutesPayload) :
  Checks.routes_ok params = false ->
  IO.run (GET key params) up
  = (Returned {| status := 400;
                 body := ErrorBody "Both origin and destination are required" |},
     []).
Proof.
  intros H. unfold Checks.routes_ok, Spec.normalized in H.
  unfold IO.run, GET. cbv zeta beta.
  rewrite <- negb_andb, H. reflexivity.
Qed.

(** X18. A routes request without an origin or without a destination (left
    out, empty or white space only) is refused with 400, whatever the key
    is, and nothing is sent to the provider. *)
Theorem routes_missing_endpoint (key : option string) (params : SearchParams)
    (up : upstream URL RoutesPayload) :
  Checks.routes_ok params = false ->
  IO.run (GET key params) up
  = (Returned {| status := 400;
                 body := ErrorBody "Both origin and destination are required" |},
     []).
Proof. apply routes_unchecked. Qed.

Lemma routes_missing_endpoint_witness :
  IO.run (GET (Some "secret") [("origin", "  "); ("destination", "JFK")])
    Examples.unreachable
  = (Returned {| status := 400;
                 body := ErrorBody "Both origin and destination are required" |},
     []).
Proof. apply routes_missing_endpoint. reflexivity. Defined.

(** What the handler does once its check and the key are passed. *)
Lemma routes_run_checked (key : option string) (params : SearchParams)
    (up : upstream URL RoutesPayload) :
  Checks.routes_ok params = true ->
  Spec.configured key = true ->
  IO.run (GET key params) up
  = IO.try_catch
      (IO.bind
         (IO.fetch (routes_url (Js.or_string key "") (Spec.normalized params "origin")
                      (Spec.normalized params "destination")))
         (fun outboundResponse =>
            IO.bind (IO.json outboundResponse) (fun outboundData =>
              match payload_error outboundData with
              | Some e =>
                  IO.ret (json_response_with
                            (ErrorBody (Js.or_string (error_message e)
                                          "Failed to fetch flight routes"))
                            400)
              | None =>
                  IO.bind
                    (fetch_return (Js.or_string key "") (Spec.normalized params "origin")
                       (Spec.normalized params "destination") (Checks.return_date params))
                    (fun returnRoutes =>
                       IO.ret (json_response
                                 (found (Spec.normalized params "origin")
                                    (Spec.normalized params "destination")
                                    (Js.or_string
                                       (searchParams_get params "departureDate") "")
                                    (Checks.return_date params)
                                    (map_routes (default [] (payload_data outboundData)))
                                    returnRoutes)))
              end)))
      (fun _ => IO.ret (json_response_with (ErrorBody failed_message) 500))
      up [].
Proof.
  intros Hok Hkey. unfold Checks.routes_ok in Hok.
  apply andb_true_iff in Hok as [Ho Hd].
  unfold Spec.configured in Hkey. unfold Spec.normalized, Checks.return_date in *.
  unfold IO.run, GET. cbv zeta beta. rewrite Ho, Hd, Hkey. reflexivity.
Qed.

(** X19. The routes handler never throws: it always answers, with the status
    200, 400 or 500.  It sends the provider nothing, or the request for
    the outbound routes, or that request followed by the request for the
    routes in the other direction; the second one only on a request with a
    return date. *)
Theorem routes_always_answers (key : option string) (params : SearchParams)
    (up : upstream URL RoutesPayload) :
  let outbound_request :=
    routes_url (Js.or_string key "") (Spec.normalized params "origin")
      (Spec.normalized params "destination") in
  let return_request :=
    routes_url (Js.or_string key "") (Spec.normalized params "destination")
      (Spec.normalized params "origin") in
  exists r log,
    IO.run (GET key params) up = (Returned r, log)
    /\ (status r = 200 \/ status r = 400 \/ status r = 500)%Z
    /\ (log = []
        \/ log = [outbound_request]
        \/ (log = [outbound_request; return_request]
            /\ Checks.return_date params <> EmptyString)).
Proof.
  intros outbound_request return_request.
  destruct (Checks.routes_ok params) eqn:Hok.
  2: { rewrite (routes_unchecked key params up Hok).
       eexists; eexists. split; [reflexivity |]. simpl. tauto. }
  destruct (Spec.configured key) eqn:Hkey.
  2: { unfold Checks.routes_ok in Hok. apply andb_true_iff in Hok as [Ho Hd].
       apply JsFacts.truthy_string_true in Ho, Hd.
       rewrite (MissingKey.routes_key_missing key params up Ho Hd Hkey).
       eexists; eexists. split; [reflexivity |]. simpl. tauto. }
  rewrite (routes_run_checked key params up Hok Hkey).
  fold outbound_request.
  unfold IO.try_catch, IO.bind at 1, IO.fetch. cbn [length app].
  destruct (up 0%nat outbound_request) as [response|];
    [| eexists; eexists; split; [reflexivity |]; simpl; tauto].
  unfold IO.bind at 1, IO.json.
  destruct (resp_json response) as [data|]; cbn [IO.ret IO.throw];
    [| eexists; eexists; split; [reflexivity |]; simpl; tauto].
  destruct (payload_error data);
    [eexists; eexists; split; [reflexivity |]; simpl; tauto |].
  unfold fetch_return. fold return_request.
  destruct (Js.truthy_string (Checks.return_date params)) eqn:Hret;
    [| eexists; eexists; split; [reflexivity |]; simpl; tauto].
  apply JsFacts.truthy_string_true in Hret.
  unfold IO.bind, IO.fetch. cbn [length app].
  destruct (up 1%nat return_request) as [returnResponse|];
    [| eexists; eexists; split; [reflexivity |]; simpl; tauto].
  unfold IO.json.
  destruct (resp_json returnResponse) as [returnData|]; cbn [IO.ret IO.throw];
    [| eexists; eexists; split; [reflexivity |]; simpl; tauto].
  destruct (payload_error returnData);
    eexists; eexists; (split; [reflexivity |]); simpl; tauto.
Qed.

(** X20. When the provider answers the outbound request with an error payload,
    the handler answers 400 with the provider's message, or with "Failed
    to fetch flight routes" when the payload has none, and the return
    routes are not asked for, return date or not; when the provider cannot
    be reached or its body is not JSON, the handler answers 500.  In both
    cases one request has been sent. *)
Theorem outbound_failures (key : option string) (params : SearchParams)
    (up : upstream URL RoutesPayload) :
  Checks.routes_ok params = true ->
  Spec.configured key = true ->
  let outbound_request :=
    routes_url (Js.or_string key "") (Spec.normalized params "origin")
      (Spec.normalized params "destination") in
  (forall response data e,
     up 0%nat outbound_request = Some response ->
     resp_json response = Some data ->
     payload_error data = Some e ->
     IO.run (GET key params) up
     = (Returned
          {| status := 400;
             body := ErrorBody (Js.or_string (error_message e)
                                  "Failed to fetch flight routes") |},
        [outbound_request]))
  /\ (up 0%nat outbound_request = None
      \/ (exists response,
            up 0%nat outbound_request = Some response /\ resp_json response = None) ->
      IO.run (GET key params) up
      = (Returned
           {| status := 500;
              body := ErrorBody "Failed to fetch flight routes. Please try again." |},
         [outbound_request])).
Proof.
  intros Hok Hkey outbound_request.
  rewrite (routes_run_checked key params up Hok Hkey). fold outbound_request.
  split.
  - intros response data e Hup Hjson Herr.
    unfold IO.try_catch, IO.bind at 1, IO.fetch. cbn [length app]. rewrite Hup.
    unfold IO.bind, IO.json. rewrite Hjson. cbn [IO.ret]. rewrite Herr. reflexivity.
  - intros [Hup | [response [Hup Hjson]]];
      unfold IO.try_catch, IO.bind at 1, IO.fetch; cbn [length app]; rewrite Hup;
      [reflexivity |].
    unfold IO.bind, IO.json. rewrite Hjson. reflexivity.
Qed.

Lemma outbound_failures_witness :
  IO.run (GET (Some "secret") Examples.round_trip)
    (Samples.always (Examples.answer Examples.routes_refused))
  = (Returned {| status := 400; body := ErrorBody "usage limit reached" |},
     [routes_url "secret" "LHR" "JFK"])
  /\ IO.run (GET (Some "secret") Examples.round_trip) Examples.unreachable
     = (Returned {| status := 500;
                    body := ErrorBody "Failed to fetch flight routes. Please try again." |},
        [routes_url "secret" "LHR" "JFK"]).
Proof.
  split.
  - apply (proj1 (outbound_failures (Some "secret") Examples.round_trip
                    (Samples.always (Examples.answer Examples.routes_refused))
                    eq_refl eq_refl)
             (Examples.answer Examples.routes_refused) Examples.routes_refused
             {| error_message := Some "usage limit reached" |}); reflexivity.
  - apply (proj2 (outbound_failures (Some "secret") Examples.round_trip
                    Examples.unreachable eq_refl eq_refl)).
    left. reflexivity.
Defined.

(** X21. Without a return date the handler sends one request, and when the
    provider answers it without an error the answer is 200 with the
    outbound routes, one for each route of the provider, and [null] for
    the return. *)
Theorem one_way_routes (key : option string) (params : SearchParams)
    (up : upstream URL RoutesPayload)
    (response : HttpResponse RoutesPayload) (data : RoutesPayload) :
  Checks.routes_ok params = true ->
  Spec.configured key = true ->
  Checks.return_date params = EmptyString ->
  up 0%nat (routes_url (Js.or_string key "") (Spec.normalized params "origin")
              (Spec.normalized params "destination")) = Some response ->
  resp_json response = Some data ->
  payload_error data = None ->
  IO.run (GET key params) up
  = (Returned
       {| status := 200;
          body :=
            RoutesFound
              {| routes := map_routes (default [] (payload_data data));
                 list_origin := Spec.normalized params "origin";
                 list_destination := Spec.normalized params "destination";
                 list_date := Js.or_string (searchParams_get params "departureDate") "" |}
              None |},
     [routes_url (Js.or_string key "") (Spec.normalized params "origin")
        (Spec.normalized params "destination")])
  /\ length (map_routes (default [] (payload_data data)))
     = length (default [] (payload_data data)).
Proof.
  intros Hok Hkey Hret Hup Hjson Herr.
  split; [| unfold map_routes; apply length_imap].
  rewrite (routes_run_checked key params up Hok Hkey).
  unfold IO.try_catch, IO.bind at 1, IO.fetch. cbn [length app]. rewrite Hup.
  unfold IO.bind at 1, IO.json. rewrite Hjson. cbn [IO.ret]. rewrite Herr.
  unfold fetch_return, found. rewrite Hret. reflexivity.
Qed.

Lemma one_way_routes_witness :
  IO.run (GET (Some "secret") Samples.one_way)
    (Samples.always (Examples.answer Examples.routes_found))
  = (Returned
       {| status := 200;
          body :=
            RoutesFound
              {| routes := [transformRoute Examples.ba117 0];
                 list_origin := "LHR";
                 list_destination := "JFK";
                 list_date := "" |}
              None |},
     [routes_url "secret" "LHR" "JFK"]).
Proof.
  apply (proj1 (one_way_routes (Some "secret") Samples.one_way
                  (Samples.always (Examples.answer Examples.routes_found))
                  (Examples.answer Examples.routes_found) Examples.routes_found
                  eq_refl eq_refl eq_refl eq_refl eq_refl eq_refl)).
Defined.

(** X22. With a return date, and both requests answered without an error, the
    answer is 200 with the two lists of routes; the return list is for the
    request with origin and destination exchanged, and it carries them
    exchanged. *)
Theorem round_trip_routes (key : option string) (params : SearchParams)
    (up : upstream URL RoutesPayload)
    (response returnResponse : HttpResponse RoutesPayload)
    (data returnData : RoutesPayload) :
  Checks.routes_ok params = true ->
  Spec.configured key = true ->
  Checks.return_date params <> EmptyString ->
  up 0%nat (routes_url (Js.or_string key "") (Spec.normalized params "origin")
              (Spec.normalized params "destination")) = Some response ->
  resp_json response = Some data ->
  payload_error data = None ->
  up 1%nat (routes_url (Js.or_string key "") (Spec.normalized params "destination")
              (Spec.normalized params "origin")) = Some returnResponse ->
  resp_json returnResponse = Some returnData ->
  payload_error returnData = None ->
  IO.run (GET key params) up
  = (Returned
       {| status := 200;
          body :=
            RoutesFound
              {| routes := map_routes (default [] (payload_data data));
                 list_origin := Spec.normalized params "origin";
                 list_destination := Spec.normalized params "destination";
                 list_date := Js.or_string (searchParams_get params "departureDate") "" |}
              (Some
                 {| routes := map_routes (default [] (payload_data returnData));
                    list_origin := Spec.normalized params "destination";
                    list_destination := Spec.normalized params "origin";
                    list_date := Checks.return_date params |}) |},
     [routes_url (Js.or_string key "") (Spec.normalized params "origin")
        (Spec.normalized params "destination");
      routes_url (Js.or_string key "") (Spec.normalized params "destination")
        (Spec.normalized params "origin")]).
Proof.
  intros Hok Hkey Hret Hup Hjson Herr Hup' Hjson' Herr'.
  apply JsFacts.truthy_string_true in Hret.
  rewrite (routes_run_checked key params up Hok Hkey).
  unfold IO.try_catch, IO.bind at 1, IO.fetch. cbn [length app]. rewrite Hup.
  unfold IO.bind at 1, IO.json. rewrite Hjson. cbn [IO.ret]. rewrite Herr.
  unfold fetch_return, found. rewrite Hret.
  unfold IO.bind, IO.fetch. cbn [length app]. rewrite Hup'.
  unfold IO.json. rewrite Hjson'. cbn [IO.ret]. rewrite Herr'. reflexivity.
Qed.

Lemma round_trip_routes_witness :
  exists outbound back,
    fst (IO.run (GET (Some "secret") Examples.round_trip)
           (Samples.always (Examples.answer Examples.routes_found)))
    = Returned {| status := 200; body := RoutesFound outbound (Some back) |}
    /\ list_origin back = "JFK" /\ list_destination back = "LHR"
    /\ list_date back = "2024-01-08".
Proof.
  eexists. eexists. split.
  - rewrite (round_trip_routes (Some "secret") Examples.round_trip
               (Samples.always (Examples.answer Examples.routes_found))
               (Examples.answer Examples.routes_found)
               (Examples.answer Examples.routes_found)
               Examples.routes_found Examples.routes_found
               eq_refl eq_refl ltac:(vm_compute; discriminate)
               eq_refl eq_refl eq_refl eq_refl eq_refl eq_refl).
    reflexivity.
  - repeat split.
Defined.

End RoutesAnswers.

(** ** The page *)

Module PageFacts.

Import Page.

(** X23. A search for nothing (an empty query, or white space only) sends no
    request: it empties the list of flights and forgets that a search was
    made, and leaves the rest of the state, the error included, as it
    was. *)
Theorem blank_search (st : State) (searchQuery : string)
    (up : upstream URL SearchData) :
  Js.trim searchQuery = EmptyString ->
  IO.run (searchFlights st searchQuery) up
  = (Returned {| query := query st; flights := []; loading := loading st;
                 searched := false; error := error st |},
     []).
Proof.
  intros H. unfold IO.run, searchFlights. rewrite H. reflexivity.
Qed.

Lemma blank_search_witness :
  IO.run (searchFlights (setError initial (Some "old error")) "   ") Examples.unreachable
  = (Returned {| query := ""; flights := []; loading := false;
                 searched := false; error := Some "old error" |},
     []).
Proof. apply blank_search. reflexivity. Defined.

(** The run of a search for something. *)
Lemma search_run (st : State) (searchQuery : string) (up : upstream URL SearchData) :
  Js.trim searchQuery <> EmptyString ->
  IO.run (searchFlights st searchQuery) up
  = (Returned
       (match up 0%nat (search_request searchQuery) with
        | Some response =>
            match resp_json response with
            | Some data =>
                if Js.truthy_string (Js.or_string (data_error data) "")
                then {| query := query st; flights := []; loading := false;
                        searched := true; error := data_error data |}
                else {| query := query st; flights := default [] (data_flights data);
                        loading := false; searched := true; error := None |}
            | None =>
                {| query := query st; flights := []; loading := false;
                   searched := true; error := None |}
            end
        | None =>
            {| query := query st; flights := []; loading := false;
               searched := true; error := None |}
        end),
     [search_request searchQuery]).
Proof.
  intros H. apply JsFacts.truthy_string_true in H.
  unfold IO.run, searchFlights. rewrite H. cbn [negb]. cbv zeta.
  unfold IO.bind at 1, IO.try_catch, IO.bind at 1, IO.fetch. cbn [length app].
  destruct (up 0%nat (search_request searchQuery)) as [response|]; [| reflexivity].
  unfold IO.bind, IO.json.
  destruct (resp_json response) as [data|]; [| reflexivity].
  cbn [IO.ret].
  destruct (Js.truthy_string (Js.or_string (data_error data) "")); reflexivity.
Qed.

(** X24. A search for something sends one request, with the query as it was
    typed, and never throws, whatever the answer is; the last thing it
    does is to switch the loading mark off. *)
Theorem search_completes (st : State) (searchQuery : string)
    (up : upstream URL SearchData) :
  Js.trim searchQuery <> EmptyString ->
  exists st',
    IO.run (searchFlights st searchQuery) up
    = (Returned st',
       [ {| url_base := "/api/flights"; url_params := [("q", searchQuery)] |} ])
    /\ loading st' = false.
Proof.
  intros H. rewrite (search_run st searchQuery up H).
  eexists. split; [reflexivity |].
  destruct (up 0%nat (search_request searchQuery)) as [response|]; [| reflexivity].
  destruct (resp_json response) as [data|]; [| reflexivity].
  destruct (Js.truthy_string (Js.or_string (data_error data) "")); reflexivity.
Qed.

Lemma search_completes_witness :
  exists st',
    IO.run (searchFlights initial "AA100") Examples.unreachable
    = (Returned st',
       [ {| url_base := "/api/flights"; url_params := [("q", "AA100")] |} ])
    /\ loading st' = false.
Proof.
  destruct (search_completes initial "AA100" Examples.unreachable
              ltac:(vm_compute; discriminate)) as [st' [H Hl]].
  exists st'. split; [exact H | exact Hl].
Defined.



(** X26. Whatever the state, the page renders two of its four panels at
    most, and two in one case only: not loading, with an error and with
    flights in the list, when the error and the list of flights are both
    rendered.  It renders none exactly when it is not loading and has no
    error, no flight and no search recorded. *)
Theorem panels_rendered (st : State) :
  (panels st <= 2)%nat
  /\ (panels st = 2%nat
      <-> loading st = false /\ has_error st = true /\ flights st <> []
          /\ shows_error st = true /\ shows_results st = true)
  /\ (panels st = 0%nat
      <-> loading st = false /\ has_error st = false /\ flights st = []
          /\ searched st = false).
Proof.
  unfold panels, shows_loading, shows_error, shows_empty, shows_results.
  destruct (loading st), (has_error st), (searched st), (flights st) as [|f fl];
    simpl; repeat split; try lia; try tauto; try discriminate;
    intros; repeat match goal with H : _ /\ _ |- _ => destruct H end;
    try discriminate; try congruence; try lia.
Qed.

(** Every status of a flight has a style for its badge, and the text of
    the badge has no hyphen left. *)
Theorem badge_defined (f : Flights.Flight) :
  is_Some (status_style f)
  /\ Spec.all_chars (fun c => negb (Ascii.eqb c "-")) (status_label f) = true.
Proof.
  unfold status_style, status_label.
  destruct (Flights.flight_state f); split; try (vm_compute; reflexivity);
    eexists; vm_compute; reflexivity.
Qed.

End PageFacts.

(** ** The page and the search handler together *)

Module SiteFacts.

(** X27. The page and the handler agree on what an empty query is: the page
    sends a request exactly for the queries the handler does not take as
    empty, so the handler's answer to an empty query is never what the
    page receives. *)
Theorem page_and_handler_agree_on_blank (searchQuery : string) :
  Js.trim searchQuery <> EmptyString
  <-> Spec.normalized (url_params (Page.search_request searchQuery)) "q" <> EmptyString.
Proof.
  rewrite <- !JsFacts.truthy_string_true.
  unfold Spec.normalized. simpl.
  rewrite CaseFacts.trim_toUpperCase.
  destruct (Js.truthy_string (Js.toUpperCase (Js.trim searchQuery))) eqn:E;
    rewrite CaseFacts.truthy_toUpperCase in E; rewrite E.
  - rewrite CaseFacts.truthy_toUpperCase, E. reflexivity.
  - simpl. reflexivity.
Qed.

Lemma query_reaches_handler (searchQuery : string) :
  Js.trim searchQuery <> EmptyString ->
  Spec.normalized [("q", searchQuery)] "q" <> EmptyString.
Proof.
  intros H. rewrite <- JsFacts.truthy_string_true in *.
  unfold Spec.normalized. simpl. rewrite CaseFacts.trim_toUpperCase.
  assert (E : Js.truthy_string (Js.toUpperCase (Js.trim searchQuery)) = true)
    by (rewrite CaseFacts.truthy_toUpperCase; exact H).
  rewrite E. exact E.
Qed.

(** X28. Without a provider key on the server, every search of the page ends
    with the handler's configuration message as the error, and no
    flight. *)
Theorem search_without_key intl (key : option string)
    (provider : upstream URL Flights.FlightsPayload)
    (st : Page.State) (searchQuery : string) :
  Js.trim searchQuery <> EmptyString ->
  Spec.configured key = false ->
  fst (IO.run (Page.searchFlights st searchQuery) (Site.api intl key provider))
  = Returned
      {| Page.query := Page.query st;
         Page.flights := [];
         Page.loading := false;
         Page.searched := true;
         Page.error :=
           Some "Aviation Stack API key not configured. Please set AVIATIONSTACK_API_KEY environment variable." |}.
Proof.
  intros Hq Hkey.
  rewrite (PageFacts.search_run st searchQuery _ Hq). cbn [fst].
  unfold Site.api. simpl url_params.
  rewrite (SearchRequests.search_key_missing intl key [("q", searchQuery)] provider
             (query_reaches_handler searchQuery Hq) Hkey).
  reflexivity.
Qed.

Lemma search_without_key_witness :
  fst (IO.run (Page.searchFlights Page.initial "AA100")
         (Site.api Examples.intl_utc None Examples.unreachable))
  = Returned
      {| Page.query := "";
         Page.flights := [];
         Page.loading := false;
         Page.searched := true;
         Page.error :=
           Some "Aviation Stack API key not configured. Please set AVIATIONSTACK_API_KEY environment variable." |}.
Proof.
  apply (search_without_key Examples.intl_utc None Examples.unreachable Page.initial "AA100").
  - vm_compute. discriminate.
  - reflexivity.
Defined.



End SiteFacts.
